(** * AFEM: builders, importer, shape patches and viewer

    A shallow embedding of the Python sources

      - [afem/structure/create.py]    (the part builders),
      - [afem/io/vsp/vsp_importer.py] (the process-wide body mapping),
      - [afem/patches/topo_patch.py]  (attributes patched onto shapes),
      - [afem/graphics/viewer.py]     (viewable items and the view widget).

    The CAD kernel and the GUI toolkit are external.  Their functions are an
    oracle ([Kernel]) whose answers the wrappers only pass on; every call the
    wrappers make is recorded in a log, so that statements of the form "the
    wrapper calls the expected kernel operations" can be written down. *)

From Stdlib Require Import ZArith QArith Qabs Lia List Ascii.
From stdpp Require Import base strings gmap pretty list.

Local Open Scope Z_scope.

(* ===================================================================== *)
(** * Python values, exceptions and the effect monad *)
(* ===================================================================== *)

Module Py.

(** The classes the builders test with [isinstance]. *)
Inductive pyclass :=
| Curve | Surface | Plane | Point
| TopoDS_Shape | TopoDS_Edge | TopoDS_Wire | TopoDS_Face
| TopoDS_Shell | TopoDS_Solid
| Body | Wing | Fuselage
| OtherClass.

#[local] Set Warnings "-register-all".

(** Dynamically typed values.  Floats are idealised as rationals; an object
    is a handle tagged with its class. *)
Inductive value :=
| PNone
| PBool (b : bool)
| PInt (z : Z)
| PNum (q : Q)
| PStr (s : string)
| PList (l : list value)
| PObj (c : pyclass) (h : N).

(** The exceptions that occur in the modelled code.  The first two are raised
    by explicit [raise] statements, the others by the interpreter on a failed
    subscript, attribute access or call. *)
Inductive exn :=
| TypeError (msg : string)
| RuntimeError (msg : string)
| IndexError (msg : string)
| AttributeError (msg : string)
| KeyError.

Inductive outcome (A : Type) :=
| Ok (a : A)
| Raise (e : exn).
Arguments Ok {A} a.
Arguments Raise {A} e.

(** Truth value of a Python object ([not x] is its negation).  Kernel and
    toolkit objects define neither [__bool__] nor [__len__]; they are true. *)
Definition truthy (v : value) : bool :=
  match v with
  | PNone => false
  | PBool b => b
  | PInt z => negb (z =? 0)
  | PNum q => negb (Qeq_bool q 0)
  | PStr s => negb (String.eqb s "")
  | PList l => negb (Nat.eqb (length l) 0)
  | PObj _ _ => true
  end.

Definition is_None (v : value) : bool :=
  match v with PNone => true | _ => false end.

(** [sep.join(l)] on strings. *)
Fixpoint join (sep : string) (l : list string) : string :=
  match l with
  | [] => ""
  | [s] => s
  | s :: rest => s +:+ sep +:+ join sep rest
  end.

(** [str(i)] on an integer: its decimal numeral. *)
Definition str (i : Z) : string := pretty i.

End Py.

Export Py.

(* ===================================================================== *)
(** * afem/structure/create.py *)
(* ===================================================================== *)

Module Create.

(** Functions, constructors and methods of the kernel layer that the
    builders call.  [X_attr] stands for the expression [X(args).attr]. *)
Inductive callable :=
| EdgeByCurve_edge
| FaceBySurface_face
| NurbsCurveByPoints_curve
| CheckGeom_to_point
| CheckShape_to_wire
| ExploreShape_curve_of_shape
| ExploreShape_surface_of_shape
| ExploreShape_get_faces
| ExploreShape_get_edges
| ExploreShape_get_vertices
| ExploreShape_pnt_of_vertex
| ExploreShape_outer_shell
| ExploreShape_copy_shape
| ExploreFreeEdges_closed_wires
| CommonShapes
| CutShapes
| IntersectShapes
| ShapeByFaces_shape
| WiresByConnectedEdges_wires
| LengthOfShapes_longest_shape
| WireByPlanarOffset_wire
| WireByConcat_wire
| FaceByPlanarWire_face
| PlanesBetweenPlanesByNumber
| PlanesBetweenPlanesByDistance
| PlanesAlongCurveByNumber
| PlanesAlongCurveByDistance
| extract_plane
| extract_curve
| invert
| eval
| distance
| reverse.

(** Attributes read from kernel-layer objects. *)
Inductive attribute :=
| is_done | shape_ | sref_shape | sref_ | u1_ | v1_ | u2_
| nplanes | spacing | planes.

(** The part classes of [afem.structure.entities]. *)
Inductive category :=
| CurvePart | Beam | SurfacePart | Spar | Rib | Bulkhead | Floor | Frame | Skin.

(** Modelled from the spec: the classes of [afem.structure.entities] are not
    among the sources.  The data model gives a structural part a label, a
    shape handle, a reference curve and a reference surface (color and
    transparency start at the viewable item's defaults and play no role in
    the builders).  A constructor stores its arguments; an omitted reference
    is [None]. *)
Record Part := mkPart {
  part_category : category;
  part_label : string;
  part_shape : value;
  part_cref : value;
  part_sref : value
}.

(** What a builder does that can be observed: a call into the kernel layer,
    or the construction of a part. *)
Inductive event :=
| ECall (f : callable) (args : list value)
| ENew (p : Part).

(** Computations that log their effects and may raise. *)
Definition M (A : Type) : Type := outcome A * list event.

Definition ret {A} (a : A) : M A := (Ok a, []).
Definition raise {A} (e : exn) : M A := (Raise e, []).
Definition bind {A B} (m : M A) (k : A -> M B) : M B :=
  match m with
  | (Ok a, l1) => let '(r, l2) := k a in (r, l1 ++ l2)
  | (Raise e, l1) => (Raise e, l1)
  end.
Definition emit (ev : event) : M unit := (Ok tt, [ev]).

Definition result {A} (m : M A) : outcome A := fst m.
Definition log {A} (m : M A) : list event := snd m.

Declare Scope py_scope.
Delimit Scope py_scope with py.
Notation "x <- m ; k" := (bind m (fun x => k))
  (at level 20, m at level 100, k at level 200, only parsing) : py_scope.
Notation "' p <- m ; k" := (bind m (fun x => let 'p := x in k))
  (at level 20, p pattern, m at level 100, k at level 200, only parsing)
  : py_scope.
Notation "m ;; k" := (bind m (fun _ => k))
  (at level 100, k at level 200, right associativity, only parsing)
  : py_scope.
Local Open Scope py_scope.

(** The kernel layer as an oracle.  The class hierarchy is declared in
    modules outside the sources, so [subclass] is part of it. *)
Record Kernel := {
  subclass : pyclass -> pyclass -> bool;
  kval : callable -> list value -> value;
  kseq : callable -> list value -> list value;
  kpair : callable -> list value -> value * value;
  knum : callable -> list value -> Q;
  aval : value -> attribute -> value;
  aseq : value -> attribute -> list value
}.

Section Builders.

Variable K : Kernel.

(** [isinstance(v, types)]: only objects are instances of the classes here. *)
Definition isinstance (v : value) (types : list pyclass) : bool :=
  match v with
  | PObj c _ => existsb (subclass K c) types
  | _ => false
  end.

Definition call (f : callable) (args : list value) : M value :=
  emit (ECall f args) ;; ret (kval K f args).
Definition call_seq (f : callable) (args : list value) : M (list value) :=
  emit (ECall f args) ;; ret (kseq K f args).
Definition call_pair (f : callable) (args : list value) : M (value * value) :=
  emit (ECall f args) ;; ret (kpair K f args).
Definition call_num (f : callable) (args : list value) : M Q :=
  emit (ECall f args) ;; ret (knum K f args).

(** A part constructor [Cls(label, shape, cref, sref)]. *)
Definition new_part (c : category) (label : string) (shape cref sref : value)
  : M Part :=
  let p := mkPart c label shape cref sref in
  emit (ENew p) ;; ret p.

(** [seq[0]] *)
Definition first (l : list value) : M value :=
  match l with
  | [] => raise (IndexError "list index out of range")
  | x :: _ => ret x
  end.

Definition _validate_type (input_ : value) (type_ : list pyclass)
    (required : bool) : M unit :=
  if negb required && negb (truthy input_) then ret tt
  else if negb (isinstance input_ type_) then
    raise (TypeError "Invalid input type.")
  else ret tt.

(** [for x in l: body], the loop variables being threaded through. *)
Fixpoint for_loop {A S : Type} (l : list A) (s : S) (body : A -> S -> M S)
  : M S :=
  match l with
  | [] => ret s
  | x :: rest => s' <- body x s ; for_loop rest s' body
  end.

(** ** Curve parts and beams *)

Definition CurvePartByShape (label : string) (shape cref : value) : M Part :=
  _validate_type shape [Curve; TopoDS_Edge; TopoDS_Wire] true ;;
  _validate_type cref [Curve] false ;;
  shape <- (if isinstance shape [Curve]
            then call EdgeByCurve_edge [shape] else ret shape) ;
  cref <- (if is_None cref
           then call ExploreShape_curve_of_shape [shape] else ret cref) ;
  new_part CurvePart label shape cref PNone.

Definition BeamByShape (label : string) (shape cref : value) : M Part :=
  _validate_type shape [Curve; TopoDS_Edge; TopoDS_Wire] true ;;
  _validate_type cref [Curve] false ;;
  shape <- (if isinstance shape [Curve]
            then call EdgeByCurve_edge [shape] else ret shape) ;
  cref <- (if is_None cref
           then call ExploreShape_curve_of_shape [shape] else ret cref) ;
  new_part Beam label shape cref PNone.

Definition BeamByCurve (label : string) (crv : value) : M Part :=
  _validate_type crv [Curve] true ;;
  e <- call EdgeByCurve_edge [crv] ;
  BeamByShape label e crv.

Definition BeamByPoints (label : string) (p1 p2 : value) : M Part :=
  p1 <- call CheckGeom_to_point [p1] ;
  p2 <- call CheckGeom_to_point [p2] ;
  _validate_type p1 [Point] true ;;
  _validate_type p2 [Point] true ;;
  c <- call NurbsCurveByPoints_curve [PList [p1; p2]] ;
  BeamByCurve label c.

(** ** Surface parts *)

Definition SurfacePartByShape (label : string) (shape cref sref : value)
  : M Part :=
  _validate_type shape [Surface; TopoDS_Face; TopoDS_Shell] true ;;
  _validate_type cref [Curve] false ;;
  _validate_type sref [Surface] false ;;
  shape <- (if isinstance shape [Curve]
            then call EdgeByCurve_edge [shape] else ret shape) ;
  sref <- (if is_None sref
           then call ExploreShape_surface_of_shape [shape] else ret sref) ;
  new_part SurfacePart label shape cref sref.

(** ** Spars *)

Definition SparByParameters (label : string) (u1 v1 u2 v2 wing : value)
    (basis_shape : value) : M Part :=
  _validate_type wing [Wing] true ;;
  _validate_type basis_shape [Surface; TopoDS_Face; TopoDS_Shell] false ;;
  '(sref, basis_shape) <-
    (if is_None basis_shape then
       pln <- call extract_plane [wing; u1; v1; u2; v2] ;
       face <- call FaceBySurface_face [pln] ;
       ret (pln, face)
     else if isinstance basis_shape [Surface] then
       face <- call FaceBySurface_face [basis_shape] ;
       ret (basis_shape, face)
     else
       sref <- call ExploreShape_surface_of_shape [basis_shape] ;
       ret (sref, basis_shape)) ;
  cref <- call extract_curve [wing; u1; v1; u2; v2; basis_shape] ;
  common <- call CommonShapes [basis_shape; wing] ;
  if negb (truthy (aval K common is_done)) then
    raise (RuntimeError "Boolean operation failed.")
  else
    let shape := aval K common shape_ in
    faces <- call_seq ExploreShape_get_faces [shape] ;
    shape <- call ShapeByFaces_shape [PList faces] ;
    new_part Spar label shape cref sref.

Definition SparByPoints (label : string) (p1 p2 wing basis_shape : value)
  : M Part :=
  p1 <- call CheckGeom_to_point [p1] ;
  p2 <- call CheckGeom_to_point [p2] ;
  _validate_type p1 [Point] true ;;
  _validate_type p2 [Point] true ;;
  '(u1, v1) <- call_pair invert [wing; p1] ;
  '(u2, v2) <- call_pair invert [wing; p2] ;
  SparByParameters label u1 v1 u2 v2 wing basis_shape.

(** [cref.reverse()] reverses the curve in place; [reverse] answers with the
    curve as it is afterwards. *)
Definition SparBySurface (label : string) (srf wing : value) : M Part :=
  _validate_type srf [Surface] true ;;
  _validate_type wing [Wing] true ;;
  basis_shape <- call FaceBySurface_face [srf] ;
  section <- call IntersectShapes [basis_shape; aval K wing sref_shape] ;
  edges <- call_seq ExploreShape_get_edges [aval K section shape_] ;
  wires <- call_seq WiresByConnectedEdges_wires [PList edges] ;
  w <- call LengthOfShapes_longest_shape [PList wires] ;
  w <- call CheckShape_to_wire [w] ;
  cref <- call ExploreShape_curve_of_shape [w] ;
  let umin := aval K (aval K wing sref_) u1_ in
  let vmin := aval K (aval K wing sref_) v1_ in
  p0 <- call eval [wing; umin; vmin] ;
  p1 <- call eval [cref; aval K cref u1_] ;
  p2 <- call eval [cref; aval K cref u2_] ;
  d1 <- call_num distance [p0; p1] ;
  d2 <- call_num distance [p0; p2] ;
  cref <- (if Qlt_le_dec d2 d1 then call reverse [cref] else ret cref) ;
  common <- call CommonShapes [basis_shape; wing] ;
  if negb (truthy (aval K common is_done)) then
    raise (RuntimeError "Boolean operation failed.")
  else
    let shape := aval K common shape_ in
    faces <- call_seq ExploreShape_get_faces [shape] ;
    shape <- call ShapeByFaces_shape [PList faces] ;
    new_part Spar label shape cref srf.

Definition SparBetweenShapes (label : string)
    (shape1 shape2 wing basis_shape : value) : M Part :=
  _validate_type shape1 [TopoDS_Shape] true ;;
  _validate_type shape2 [TopoDS_Shape] true ;;
  _validate_type wing [Wing] true ;;
  _validate_type basis_shape [Surface; TopoDS_Face; TopoDS_Shell] false ;;
  basis_shape <- (if isinstance basis_shape [Surface]
                  then call FaceBySurface_face [basis_shape]
                  else ret basis_shape) ;
  section <- call IntersectShapes [basis_shape; aval K wing sref_shape] ;
  let wing_basis_edges := aval K section shape_ in
  section1 <- call IntersectShapes [shape1; wing_basis_edges] ;
  let p1_shape := aval K section1 shape_ in
  section2 <- call IntersectShapes [shape2; wing_basis_edges] ;
  let p2_shape := aval K section2 shape_ in
  vs1 <- call_seq ExploreShape_get_vertices [p1_shape] ;
  v1 <- first vs1 ;
  vs2 <- call_seq ExploreShape_get_vertices [p2_shape] ;
  v2 <- first vs2 ;
  p1 <- call ExploreShape_pnt_of_vertex [v1] ;
  p2 <- call ExploreShape_pnt_of_vertex [v2] ;
  SparByPoints label p1 p2 wing basis_shape.

(** ** Ribs *)

Definition RibByParameters (label : string) (u1 v1 u2 v2 wing : value)
    (basis_shape : value) : M Part :=
  _validate_type wing [Wing] true ;;
  _validate_type basis_shape [Surface; TopoDS_Face; TopoDS_Shell] false ;;
  '(sref, basis_shape) <-
    (if is_None basis_shape then
       pln <- call extract_plane [wing; u1; v1; u2; v2] ;
       face <- call FaceBySurface_face [pln] ;
       ret (pln, face)
     else if isinstance basis_shape [Surface] then
       face <- call FaceBySurface_face [basis_shape] ;
       ret (basis_shape, face)
     else
       sref <- call ExploreShape_surface_of_shape [basis_shape] ;
       ret (sref, basis_shape)) ;
  cref <- call extract_curve [wing; u1; v1; u2; v2; basis_shape] ;
  common <- call CommonShapes [basis_shape; wing] ;
  if negb (truthy (aval K common is_done)) then
    raise (RuntimeError "Boolean operation failed.")
  else
    let shape := aval K common shape_ in
    faces <- call_seq ExploreShape_get_faces [shape] ;
    shape <- call ShapeByFaces_shape [PList faces] ;
    new_part Rib label shape cref sref.

Definition RibByPoints (label : string) (p1 p2 wing basis_shape : value)
  : M Part :=
  p1 <- call CheckGeom_to_point [p1] ;
  p2 <- call CheckGeom_to_point [p2] ;
  _validate_type p1 [Point] true ;;
  _validate_type p2 [Point] true ;;
  '(u1, v1) <- call_pair invert [wing; p1] ;
  '(u2, v2) <- call_pair invert [wing; p2] ;
  RibByParameters label u1 v1 u2 v2 wing basis_shape.

Definition RibBySurface (label : string) (srf wing : value) : M Part :=
  _validate_type srf [Surface] true ;;
  _validate_type wing [Wing] true ;;
  basis_shape <- call FaceBySurface_face [srf] ;
  section <- call IntersectShapes [basis_shape; aval K wing sref_shape] ;
  edges <- call_seq ExploreShape_get_edges [aval K section shape_] ;
  wires <- call_seq WiresByConnectedEdges_wires [PList edges] ;
  w <- call LengthOfShapes_longest_shape [PList wires] ;
  w <- call CheckShape_to_wire [w] ;
  cref <- call ExploreShape_curve_of_shape [w] ;
  let umin := aval K (aval K wing sref_) u1_ in
  let vmin := aval K (aval K wing sref_) v1_ in
  p0 <- call eval [wing; umin; vmin] ;
  p1 <- call eval [cref; aval K cref u1_] ;
  p2 <- call eval [cref; aval K cref u2_] ;
  d1 <- call_num distance [p0; p1] ;
  d2 <- call_num distance [p0; p2] ;
  cref <- (if Qlt_le_dec d2 d1 then call reverse [cref] else ret cref) ;
  common <- call CommonShapes [basis_shape; wing] ;
  if negb (truthy (aval K common is_done)) then
    raise (RuntimeError "Boolean operation failed.")
  else
    let shape := aval K common shape_ in
    faces <- call_seq ExploreShape_get_faces [shape] ;
    shape <- call ShapeByFaces_shape [PList faces] ;
    new_part Rib label shape cref srf.

Definition RibBetweenShapes (label : string)
    (shape1 shape2 wing basis_shape : value) : M Part :=
  _validate_type shape1 [TopoDS_Shape] true ;;
  _validate_type shape2 [TopoDS_Shape] true ;;
  _validate_type wing [Wing] true ;;
  _validate_type basis_shape [Surface; TopoDS_Face; TopoDS_Shell] false ;;
  basis_shape <- (if isinstance basis_shape [Surface]
                  then call FaceBySurface_face [basis_shape]
                  else ret basis_shape) ;
  section <- call IntersectShapes [basis_shape; aval K wing sref_shape] ;
  let wing_basis_edges := aval K section shape_ in
  section1 <- call IntersectShapes [shape1; wing_basis_edges] ;
  let p1_shape := aval K section1 shape_ in
  section2 <- call IntersectShapes [shape2; wing_basis_edges] ;
  let p2_shape := aval K section2 shape_ in
  vs1 <- call_seq ExploreShape_get_vertices [p1_shape] ;
  v1 <- first vs1 ;
  vs2 <- call_seq ExploreShape_get_vertices [p2_shape] ;
  v2 <- first vs2 ;
  p1 <- call ExploreShape_pnt_of_vertex [v1] ;
  p2 <- call ExploreShape_pnt_of_vertex [v2] ;
  RibByPoints label p1 p2 wing basis_shape.

(** ** Several parts at once *)

(** The attributes a multi-part builder sets: the list of parts ([_ribs] or
    [_frames]), their number ([_nribs], [_nframes]), the spacing ([_ds]) and
    [_next_index]. *)
Record Parts := mkParts {
  parts : list Part;
  nparts : value;
  ds : value;
  next_index : Z
}.

(** The body of the loops over [builder.planes] in the rib builders; the loop
    variables are the list built so far and [first_index]. *)
Definition rib_body (label delimiter : string) (shape1 shape2 wing : value)
    (pln : value) (s : list Part * Z) : M (list Part * Z) :=
  let '(ribs, first_index) := s in
  basis_shape <- call FaceBySurface_face [pln] ;
  let label_indx := join delimiter [label; str first_index] in
  rib <- RibBetweenShapes label_indx shape1 shape2 wing basis_shape ;
  let first_index := first_index + 1 in
  ret (ribs ++ [rib], first_index).

Definition RibsBetweenPlanesByNumber (label : string) (pln1 pln2 : value)
    (n : Z) (shape1 shape2 wing d1 d2 : value) (first_index : Z)
    (delimiter : string) : M Parts :=
  _validate_type pln1 [Plane] true ;;
  _validate_type pln2 [Plane] true ;;
  _validate_type wing [Wing] true ;;
  _validate_type shape1 [TopoDS_Shape] true ;;
  _validate_type shape2 [TopoDS_Shape] true ;;
  builder <- call PlanesBetweenPlanesByNumber [pln1; pln2; PInt n; d1; d2] ;
  let nribs := aval K builder nplanes in
  let ds := aval K builder spacing in
  '(ribs, first_index) <-
    for_loop (aseq K builder planes) ([], first_index)
      (rib_body label delimiter shape1 shape2 wing) ;
  ret (mkParts ribs nribs ds first_index).

Definition RibsBetweenPlanesByDistance (label : string) (pln1 pln2 : value)
    (maxd shape1 shape2 wing d1 d2 nmin : value) (first_index : Z)
    (delimiter : string) : M Parts :=
  _validate_type pln1 [Plane] true ;;
  _validate_type pln2 [Plane] true ;;
  _validate_type wing [Wing] true ;;
  _validate_type shape1 [TopoDS_Shape] true ;;
  _validate_type shape2 [TopoDS_Shape] true ;;
  builder <- call PlanesBetweenPlanesByDistance
               [pln1; pln2; maxd; d1; d2; nmin] ;
  let nribs := aval K builder nplanes in
  let ds := aval K builder spacing in
  '(ribs, first_index) <-
    for_loop (aseq K builder planes) ([], first_index)
      (rib_body label delimiter shape1 shape2 wing) ;
  ret (mkParts ribs nribs ds first_index).

Definition RibsAlongCurveByNumber (label : string) (crv : value) (n : Z)
    (shape1 shape2 wing ref_pln u1 u2 d1 d2 : value) (first_index : Z)
    (delimiter : string) (tol : value) : M Parts :=
  _validate_type crv [Curve] true ;;
  _validate_type shape1 [TopoDS_Shape] true ;;
  _validate_type shape2 [TopoDS_Shape] true ;;
  _validate_type wing [Wing] true ;;
  _validate_type ref_pln [Plane] false ;;
  builder <- call PlanesAlongCurveByNumber
               [crv; PInt n; ref_pln; u1; u2; d1; d2; tol] ;
  let nribs := aval K builder nplanes in
  let ds := aval K builder spacing in
  '(ribs, first_index) <-
    for_loop (aseq K builder planes) ([], first_index)
      (rib_body label delimiter shape1 shape2 wing) ;
  ret (mkParts ribs nribs ds first_index).

Definition RibsAlongCurveByDistance (label : string) (crv maxd : value)
    (shape1 shape2 wing ref_pln u1 u2 d1 d2 nmin : value) (first_index : Z)
    (delimiter : string) (tol : value) : M Parts :=
  _validate_type crv [Curve] true ;;
  _validate_type shape1 [TopoDS_Shape] true ;;
  _validate_type shape2 [TopoDS_Shape] true ;;
  _validate_type wing [Wing] true ;;
  _validate_type ref_pln [Plane] false ;;
  builder <- call PlanesAlongCurveByDistance
               [crv; maxd; ref_pln; u1; u2; d1; d2; nmin; tol] ;
  let nribs := aval K builder nplanes in
  let ds := aval K builder spacing in
  '(ribs, first_index) <-
    for_loop (aseq K builder planes) ([], first_index)
      (rib_body label delimiter shape1 shape2 wing) ;
  ret (mkParts ribs nribs ds first_index).

(** ** Bulkheads and floors *)

Definition BulkheadBySurface (label : string) (srf fuselage : value)
  : M Part :=
  _validate_type srf [Surface] true ;;
  _validate_type fuselage [Fuselage] true ;;
  basis_shape <- call FaceBySurface_face [srf] ;
  common <- call CommonShapes [basis_shape; fuselage] ;
  if negb (truthy (aval K common is_done)) then
    raise (RuntimeError "Boolean operation failed.")
  else
    let shape := aval K common shape_ in
    faces <- call_seq ExploreShape_get_faces [shape] ;
    shape <- call ShapeByFaces_shape [PList faces] ;
    new_part Bulkhead label shape PNone srf.

Definition FloorBySurface (label : string) (srf fuselage : value) : M Part :=
  _validate_type srf [Surface] true ;;
  _validate_type fuselage [Fuselage] true ;;
  basis_shape <- call FaceBySurface_face [srf] ;
  common <- call CommonShapes [basis_shape; fuselage] ;
  if negb (truthy (aval K common is_done)) then
    raise (RuntimeError "Boolean operation failed.")
  else
    let shape := aval K common shape_ in
    faces <- call_seq ExploreShape_get_faces [shape] ;
    shape <- call ShapeByFaces_shape [PList faces] ;
    new_part Floor label shape PNone srf.

(** ** Frames *)

Definition FrameByPlane (label : string) (pln fuselage : value) (height : Q)
  : M Part :=
  _validate_type pln [Plane] true ;;
  _validate_type fuselage [Fuselage] true ;;
  basis_shape <- call FaceBySurface_face [pln] ;
  common <- call CommonShapes [basis_shape; fuselage] ;
  if negb (truthy (aval K common is_done)) then
    raise (RuntimeError "Boolean operation failed.")
  else
    let shape := aval K common shape_ in
    closed_wires <- call_seq ExploreFreeEdges_closed_wires [shape] ;
    outer_wire <-
      (if (1 <? length closed_wires)%nat
       then call LengthOfShapes_longest_shape [PList closed_wires]
       else first closed_wires) ;
    inner_wire <-
      call WireByPlanarOffset_wire [outer_wire; PNum (- Qabs height)] ;
    inner_wire <- call WireByConcat_wire [inner_wire] ;
    inner_face <- call FaceByPlanarWire_face [inner_wire] ;
    cut <- call CutShapes [shape; inner_face] ;
    if negb (truthy (aval K cut is_done)) then
      raise (RuntimeError "Boolean operation failed.")
    else
      let shape := aval K cut shape_ in
      faces <- call_seq ExploreShape_get_faces [shape] ;
      shape <- call ShapeByFaces_shape [PList faces] ;
      new_part Frame label shape PNone pln.

(** The body of the loops over planes in the frame builders. *)
Definition frame_body (label delimiter : string) (fuselage : value)
    (height : Q) (pln : value) (s : list Part * Z) : M (list Part * Z) :=
  let '(frames, first_index) := s in
  let label_indx := join delimiter [label; str first_index] in
  frame <- FrameByPlane label_indx pln fuselage height ;
  let first_index := first_index + 1 in
  ret (frames ++ [frame], first_index).

Definition FramesBetweenPlanesByNumber (label : string) (pln1 pln2 : value)
    (n : Z) (fuselage : value) (height : Q) (d1 d2 : value)
    (first_index : Z) (delimiter : string) : M Parts :=
  _validate_type pln1 [Plane] true ;;
  _validate_type pln2 [Plane] true ;;
  _validate_type fuselage [Fuselage] true ;;
  builder <- call PlanesBetweenPlanesByNumber [pln1; pln2; PInt n; d1; d2] ;
  let nframes := aval K builder nplanes in
  let ds := aval K builder spacing in
  '(frames, first_index) <-
    for_loop (aseq K builder planes) ([], first_index)
      (frame_body label delimiter fuselage height) ;
  ret (mkParts frames nframes ds first_index).

Definition FramesBetweenPlanesByDistance (label : string)
    (pln1 pln2 maxd fuselage : value) (height : Q) (d1 d2 nmin : value)
    (first_index : Z) (delimiter : string) : M Parts :=
  _validate_type pln1 [Plane] true ;;
  _validate_type pln2 [Plane] true ;;
  _validate_type fuselage [Fuselage] true ;;
  builder <- call PlanesBetweenPlanesByDistance
               [pln1; pln2; maxd; d1; d2; nmin] ;
  let nframes := aval K builder nplanes in
  let ds := aval K builder spacing in
  '(frames, first_index) <-
    for_loop (aseq K builder planes) ([], first_index)
      (frame_body label delimiter fuselage height) ;
  ret (mkParts frames nframes ds first_index).

Definition FramesByPlanes (label : string) (plns : list value)
    (fuselage : value) (height : Q) (first_index : Z) (delimiter : string)
  : M Parts :=
  for_loop plns tt (fun pln _ => _validate_type pln [Plane] true) ;;
  _validate_type fuselage [Fuselage] true ;;
  let nframes := PInt (Z.of_nat (length plns)) in
  '(frames, first_index) <-
    for_loop plns ([], first_index)
      (frame_body label delimiter fuselage height) ;
  ds <- (match plns with
         | pln0 :: pln1 :: _ =>
             p1 <- call eval [pln0; PNum 0; PNum 0] ;
             p2 <- call eval [pln1; PNum 0; PNum 0] ;
             d <- call_num distance [p1; p2] ;
             ret (PNum d)
         | _ => ret PNone
         end) ;
  ret (mkParts frames nframes ds first_index).

(** ** Skins *)

Definition SkinBySolid (label : string) (solid : value) (copy : bool)
  : M Part :=
  _validate_type solid [TopoDS_Solid] true ;;
  shell <- call ExploreShape_outer_shell [solid] ;
  shell <- (if copy
            then call ExploreShape_copy_shape [shell; PBool false]
            else ret shell) ;
  new_part Skin label shell PNone PNone.

Definition SkinByBody (label : string) (body : value) (copy : bool)
  : M Part :=
  _validate_type body [Body] true ;;
  SkinBySolid label body copy.

End Builders.

(** ** Reading a run *)

(** The exception a computation ends with, if any. *)
Definition raised {A} (m : M A) : option exn :=
  match result m with
  | Raise e => Some e
  | Ok _ => None
  end.

(** The parts constructed during a run, in order. *)
Fixpoint created (l : list event) : list Part :=
  match l with
  | [] => []
  | ENew p :: rest => p :: created rest
  | ECall _ _ :: rest => created rest
  end.

(** The two errors the builders raise on purpose. *)
Definition validation_error : exn := TypeError "Invalid input type.".
Definition boolean_error : exn := RuntimeError "Boolean operation failed.".

Definition documented (e : exn) : Prop :=
  e = validation_error \/ e = boolean_error.

(** The Boolean operations whose [is_done] flag the builders read. *)
Definition is_boolean (f : callable) : bool :=
  match f with
  | CommonShapes | CutShapes => true
  | _ => false
  end.


(** ** Calls of the builders, as data *)

(** The single-part builders that run a Boolean operation. *)
Inductive boolean_call :=
| call_SparByParameters (label : string) (u1 v1 u2 v2 wing basis_shape : value)
| call_RibByParameters (label : string) (u1 v1 u2 v2 wing basis_shape : value)
| call_SparBySurface (label : string) (srf wing : value)
| call_RibBySurface (label : string) (srf wing : value)
| call_BulkheadBySurface (label : string) (srf fuselage : value)
| call_FloorBySurface (label : string) (srf fuselage : value)
| call_FrameByPlane (label : string) (pln fuselage : value) (height : Q).

Definition run_boolean (K : Kernel) (c : boolean_call) : M Part :=
  match c with
  | call_SparByParameters l u1 v1 u2 v2 w b => SparByParameters K l u1 v1 u2 v2 w b
  | call_RibByParameters l u1 v1 u2 v2 w b => RibByParameters K l u1 v1 u2 v2 w b
  | call_SparBySurface l s w => SparBySurface K l s w
  | call_RibBySurface l s w => RibBySurface K l s w
  | call_BulkheadBySurface l s f => BulkheadBySurface K l s f
  | call_FloorBySurface l s f => FloorBySurface K l s f
  | call_FrameByPlane l p f h => FrameByPlane K l p f h
  end.


(** The other single-part builders. *)
Inductive plain_call :=
| call_CurvePartByShape (label : string) (shape cref : value)
| call_BeamByShape (label : string) (shape cref : value)
| call_BeamByCurve (label : string) (crv : value)
| call_BeamByPoints (label : string) (p1 p2 : value)
| call_SurfacePartByShape (label : string) (shape cref sref : value)
| call_SparByPoints (label : string) (p1 p2 wing basis_shape : value)
| call_SparBetweenShapes (label : string) (shape1 shape2 wing basis_shape : value)
| call_RibByPoints (label : string) (p1 p2 wing basis_shape : value)
| call_RibBetweenShapes (label : string) (shape1 shape2 wing basis_shape : value)
| call_SkinBySolid (label : string) (solid : value) (copy : bool)
| call_SkinByBody (label : string) (body : value) (copy : bool).

Definition run_plain (K : Kernel) (c : plain_call) : M Part :=
  match c with
  | call_CurvePartByShape l s c => CurvePartByShape K l s c
  | call_BeamByShape l s c => BeamByShape K l s c
  | call_BeamByCurve l c => BeamByCurve K l c
  | call_BeamByPoints l p1 p2 => BeamByPoints K l p1 p2
  | call_SurfacePartByShape l s c r => SurfacePartByShape K l s c r
  | call_SparByPoints l p1 p2 w b => SparByPoints K l p1 p2 w b
  | call_SparBetweenShapes l s1 s2 w b => SparBetweenShapes K l s1 s2 w b
  | call_RibByPoints l p1 p2 w b => RibByPoints K l p1 p2 w b
  | call_RibBetweenShapes l s1 s2 w b => RibBetweenShapes K l s1 s2 w b
  | call_SkinBySolid l s c => SkinBySolid K l s c
  | call_SkinByBody l b c => SkinByBody K l b c
  end.

(** The multi-part builders. *)
Inductive multi_call :=
| call_RibsBetweenPlanesByNumber (label : string) (pln1 pln2 : value) (n : Z)
    (shape1 shape2 wing d1 d2 : value) (first_index : Z) (delimiter : string)
| call_RibsBetweenPlanesByDistance (label : string)
    (pln1 pln2 maxd shape1 shape2 wing d1 d2 nmin : value) (first_index : Z)
    (delimiter : string)
| call_RibsAlongCurveByNumber (label : string) (crv : value) (n : Z)
    (shape1 shape2 wing ref_pln u1 u2 d1 d2 : value) (first_index : Z)
    (delimiter : string) (tol : value)
| call_RibsAlongCurveByDistance (label : string)
    (crv maxd shape1 shape2 wing ref_pln u1 u2 d1 d2 nmin : value)
    (first_index : Z) (delimiter : string) (tol : value)
| call_FramesBetweenPlanesByNumber (label : string) (pln1 pln2 : value)
    (n : Z) (fuselage : value) (height : Q) (d1 d2 : value) (first_index : Z)
    (delimiter : string)
| call_FramesBetweenPlanesByDistance (label : string)
    (pln1 pln2 maxd fuselage : value) (height : Q) (d1 d2 nmin : value)
    (first_index : Z) (delimiter : string)
| call_FramesByPlanes (label : string) (plns : list value) (fuselage : value)
    (height : Q) (first_index : Z) (delimiter : string).

Definition run_multi (K : Kernel) (c : multi_call) : M Parts :=
  match c with
  | call_RibsBetweenPlanesByNumber l p1 p2 n s1 s2 w d1 d2 i d =>
      RibsBetweenPlanesByNumber K l p1 p2 n s1 s2 w d1 d2 i d
  | call_RibsBetweenPlanesByDistance l p1 p2 m s1 s2 w d1 d2 nm i d =>
      RibsBetweenPlanesByDistance K l p1 p2 m s1 s2 w d1 d2 nm i d
  | call_RibsAlongCurveByNumber l c n s1 s2 w r u1 u2 d1 d2 i d t =>
      RibsAlongCurveByNumber K l c n s1 s2 w r u1 u2 d1 d2 i d t
  | call_RibsAlongCurveByDistance l c m s1 s2 w r u1 u2 d1 d2 nm i d t =>
      RibsAlongCurveByDistance K l c m s1 s2 w r u1 u2 d1 d2 nm i d t
  | call_FramesBetweenPlanesByNumber l p1 p2 n f h d1 d2 i d =>
      FramesBetweenPlanesByNumber K l p1 p2 n f h d1 d2 i d
  | call_FramesBetweenPlanesByDistance l p1 p2 m f h d1 d2 nm i d =>
      FramesBetweenPlanesByDistance K l p1 p2 m f h d1 d2 nm i d
  | call_FramesByPlanes l ps f h i d => FramesByPlanes K l ps f h i d
  end.

Definition label_of (c : multi_call) : string :=
  match c with
  | call_RibsBetweenPlanesByNumber l _ _ _ _ _ _ _ _ _ _
  | call_RibsBetweenPlanesByDistance l _ _ _ _ _ _ _ _ _ _ _
  | call_RibsAlongCurveByNumber l _ _ _ _ _ _ _ _ _ _ _ _ _
  | call_RibsAlongCurveByDistance l _ _ _ _ _ _ _ _ _ _ _ _ _ _
  | call_FramesBetweenPlanesByNumber l _ _ _ _ _ _ _ _ _
  | call_FramesBetweenPlanesByDistance l _ _ _ _ _ _ _ _ _ _
  | call_FramesByPlanes l _ _ _ _ _ => l
  end.

Definition first_index_of (c : multi_call) : Z :=
  match c with
  | call_RibsBetweenPlanesByNumber _ _ _ _ _ _ _ _ _ i _
  | call_RibsBetweenPlanesByDistance _ _ _ _ _ _ _ _ _ _ i _
  | call_RibsAlongCurveByNumber _ _ _ _ _ _ _ _ _ _ _ i _ _
  | call_RibsAlongCurveByDistance _ _ _ _ _ _ _ _ _ _ _ _ i _ _
  | call_FramesBetweenPlanesByNumber _ _ _ _ _ _ _ _ i _
  | call_FramesBetweenPlanesByDistance _ _ _ _ _ _ _ _ _ i _
  | call_FramesByPlanes _ _ _ _ i _ => i
  end.

Definition delimiter_of (c : multi_call) : string :=
  match c with
  | call_RibsBetweenPlanesByNumber _ _ _ _ _ _ _ _ _ _ d
  | call_RibsBetweenPlanesByDistance _ _ _ _ _ _ _ _ _ _ _ d
  | call_RibsAlongCurveByNumber _ _ _ _ _ _ _ _ _ _ _ _ d _
  | call_RibsAlongCurveByDistance _ _ _ _ _ _ _ _ _ _ _ _ _ d _
  | call_FramesBetweenPlanesByNumber _ _ _ _ _ _ _ _ _ d
  | call_FramesBetweenPlanesByDistance _ _ _ _ _ _ _ _ _ _ d
  | call_FramesByPlanes _ _ _ _ _ d => d
  end.

(** ** A small kernel to run the builders on *)

Definition class_eqb (c d : pyclass) : bool :=
  match c, d with
  | Curve, Curve | Surface, Surface | Plane, Plane | Point, Point
  | TopoDS_Shape, TopoDS_Shape | TopoDS_Edge, TopoDS_Edge
  | TopoDS_Wire, TopoDS_Wire | TopoDS_Face, TopoDS_Face
  | TopoDS_Shell, TopoDS_Shell | TopoDS_Solid, TopoDS_Solid
  | Body, Body | Wing, Wing | Fuselage, Fuselage
  | OtherClass, OtherClass => true
  | _, _ => false
  end.

(** A plane is a surface, the topological classes are shapes, a body is a
    solid, wings and fuselages are bodies. *)
Definition demo_subclass (c d : pyclass) : bool :=
  class_eqb c d ||
  match c, d with
  | Plane, Surface => true
  | (TopoDS_Edge | TopoDS_Wire | TopoDS_Face | TopoDS_Shell | TopoDS_Solid),
    TopoDS_Shape => true
  | (Body | Wing | Fuselage), (TopoDS_Solid | TopoDS_Shape) => true
  | (Wing | Fuselage), Body => true
  | _, _ => false
  end.

(** The class of what each callable answers with. *)
Definition demo_class (f : callable) : pyclass :=
  match f with
  | EdgeByCurve_edge => TopoDS_Edge
  | FaceBySurface_face | FaceByPlanarWire_face => TopoDS_Face
  | NurbsCurveByPoints_curve | ExploreShape_curve_of_shape | extract_curve
  | reverse => Curve
  | CheckGeom_to_point | ExploreShape_pnt_of_vertex | eval => Point
  | CheckShape_to_wire | WireByPlanarOffset_wire | WireByConcat_wire
  | LengthOfShapes_longest_shape => TopoDS_Wire
  | ExploreShape_surface_of_shape => Surface
  | extract_plane => Plane
  | ExploreShape_outer_shell | ExploreShape_copy_shape => TopoDS_Shell
  | ShapeByFaces_shape => TopoDS_Shape
  | _ => OtherClass
  end.

(** Handles are told apart by the number of arguments of the call; Boolean
    operations are done when [done] says so; every sequence the kernel hands
    back has the elements [seq_of f]. *)
Definition demo (done : list value -> bool) (seq_of : callable -> list value)
  : Kernel :=
  {| subclass := demo_subclass;
     kval := fun f args =>
       if is_boolean f
       then PObj OtherClass (if done args then 1 else 0)%N
       else PObj (demo_class f) (N.of_nat (length args));
     kseq := fun f _ => seq_of f;
     kpair := fun _ _ => (PNum (1 # 4), PNum (1 # 2));
     knum := fun _ args => inject_Z (Z.of_nat (length args));
     aval := fun v a =>
       match a, v with
       | is_done, PObj _ h => PBool (negb (N.eqb h 0))
       | shape_, _ => PObj TopoDS_Shape 7
       | _, _ => PObj OtherClass 9
       end;
     aseq := fun _ _ => seq_of PlanesBetweenPlanesByNumber |}.

Definition a_wire : value := PObj TopoDS_Wire 40.
Definition a_plane (h : N) : value := PObj Plane h.
Definition a_wing : value := PObj Wing 50.
Definition a_fuselage : value := PObj Fuselage 51.

Definition demo_seq (f : callable) : list value :=
  match f with
  | PlanesBetweenPlanesByNumber => [a_plane 1; a_plane 2; a_plane 3]
  | ExploreFreeEdges_closed_wires => [a_wire]
  | _ => [PObj TopoDS_Shape 60]
  end.

(** A kernel on which every Boolean operation is done. *)
Definition demo_ok : Kernel := demo (fun _ => true) demo_seq.

(** A kernel on which every Boolean operation fails. *)
Definition demo_failing : Kernel := demo (fun _ => false) demo_seq.


End Create.

(* ===================================================================== *)
(** * afem/io/vsp/vsp_importer.py *)
(* ===================================================================== *)

Module Importer.

Section ImportVSP.

(** [import_vsp_step] is defined in [.methods.import_vsp_step], outside the
    sources: it parses a file into a dictionary of bodies, or raises. *)
Variable import_vsp_step : string -> bool -> outcome (gmap string value).

(** The class attribute [ImportVSP._bodies] is the only store: every class
    method below reads or writes the dictionary it is handed and hands it on.
    [d.update(bodies)] keeps the entries of [d] whose key [bodies] lacks. *)
Definition step_file (_bodies : gmap string value) (fn : string)
    (divide_closed : bool) : outcome bool * gmap string value :=
  match import_vsp_step fn divide_closed with
  | Ok bodies => (Ok true, bodies ∪ _bodies)
  | Raise e => (Raise e, _bodies)
  end.

Definition clear (_bodies : gmap string value)
  : outcome bool * gmap string value :=
  (Ok true, ∅).

(** [d[name]] *)
Definition getitem (d : gmap string value) (name : string) : outcome value :=
  match d !! name with
  | Some b => Ok b
  | None => Raise KeyError
  end.

Definition get_body (_bodies : gmap string value) (name : string)
  : outcome value :=
  match getitem _bodies name with
  | Raise KeyError => Ok PNone
  | r => r
  end.

Definition get_bodies (_bodies : gmap string value) : gmap string value :=
  _bodies.

End ImportVSP.

End Importer.

(* ===================================================================== *)
(** * Colors, transparency and mirrors *)
(* ===================================================================== *)

(** What [ViewableItem] and the attributes patched onto [TopoDS_Shape] have
    in common. *)
Module Item.

(** [Quantity_Color(r, g, b, Quantity_TOC_RGB)] *)
Record Quantity_Color := RGB { red : Q; green : Q; blue : Q }.

Record item := mkItem {
  color : option Quantity_Color;
  transparency : Q;
  mirror : value
}.


(** The transform builder of the kernel. *)
Record Transform := {
  object_ : value -> value;
  Pln : value -> value;
  gce_MakeMirror_Value : value -> value;
  BRepBuilderAPI_Transform : value -> value -> bool -> value;
  IsDone : value -> bool;
  Shape : value -> value
}.

End Item.

Export Item.

(* ===================================================================== *)
(** * afem/patches/topo_patch.py *)
(* ===================================================================== *)

Module Patch.

(** The class attributes set on [TopoDS_Shape]. *)
Definition TopoDS_Shape_defaults : item :=
  {| color := None; transparency := 0%Q; mirror := PNone |}.



Definition _set_mirror (self : item) (pln : value) : item :=
  {| color := color self; transparency := transparency self; mirror := pln |}.

(** [shape] is the shape itself, [self] its patched attributes.  Only an
    object has a method [Pln]. *)
Definition _get_mirrored (T : Transform) (shape : value) (self : item)
  : outcome value :=
  if negb (truthy (mirror self)) then Ok PNone
  else
    match mirror self with
    | PObj _ _ =>
        let trsf := gce_MakeMirror_Value T (Pln T (mirror self)) in
        let builder := BRepBuilderAPI_Transform T shape trsf true in
        if negb (IsDone T builder) then Ok PNone
        else Ok (Shape T builder)
    | _ => Raise (AttributeError "Pln")
    end.

End Patch.

(* ===================================================================== *)
(** * afem/graphics/viewer.py *)
(* ===================================================================== *)

Module Viewer.

(** ** ViewableItem *)






(** ** occView *)

Inductive V3d_TypeOfOrientation :=
| V3d_XposYposZpos | V3d_Zpos | V3d_Zneg
| V3d_Xneg | V3d_Xpos | V3d_Yneg | V3d_Ypos.

(** The calls the widget makes on its view and context. *)
Inductive view_call :=
| SetWindow
| SetBackgroundColor (r g b : Q)
| TriedronDisplay
| SetProj (o : V3d_TypeOfOrientation)
| View
| Redraw
| MustBeResized
| FitAll
| SetZoom (zoom : Q)
| Dump (fn : string)
| RemoveAll.

(** What the keyboard map holds: the bound method [my_view.FitAll] of the
    view that existed when the map was built, or a method of the widget. *)
Inductive handler :=
| bound_FitAll (view : value)
| bound_view_iso
| bound_view_top.

(** The attributes of the widget that the modelled methods use.  [_keys] is
    absent until [init] has run. *)
Record occView := mkView {
  my_view : value;
  my_context : value;
  _keys : option (gmap Z handler)
}.

Definition V (A : Type) : Type := outcome A * list view_call.

(** [ord(c)] *)
Definition ord (c : Ascii.ascii) : Z := Z.of_nat (Ascii.nat_of_ascii c).

Definition occView_init : occView :=
  {| my_view := PNone; my_context := PNone; _keys := None |}.

(** A method call on [self.my_view]; [None] has no methods. *)
Definition on_view (self : occView) (c : view_call) : V unit :=
  match my_view self with
  | PNone => (Raise (AttributeError "NoneType"), [])
  | _ => (Ok tt, [c])
  end.

(** [init]: [view] and [context] are the objects the kernel creates. *)
Definition init (view context : N) (self : occView) : occView * list view_call :=
  let v := PObj OtherClass view in
  ({| my_view := v;
      my_context := PObj OtherClass context;
      _keys := Some {[ ord "F"%char := bound_FitAll v;
                       ord "I"%char := bound_view_iso;
                       ord "T"%char := bound_view_top ]} |},
   [SetWindow; SetBackgroundColor (1 # 2)%Q (1 # 2)%Q (1 # 2)%Q;
    TriedronDisplay;
    SetProj V3d_XposYposZpos; View]).

Definition fit (self : occView) : V unit := on_view self FitAll.
Definition view_iso (self : occView) : V unit :=
  on_view self (SetProj V3d_XposYposZpos).
Definition view_top (self : occView) : V unit :=
  on_view self (SetProj V3d_Zpos).
Definition view_bottom (self : occView) : V unit :=
  on_view self (SetProj V3d_Zneg).
Definition view_front (self : occView) : V unit :=
  on_view self (SetProj V3d_Xneg).
Definition view_rear (self : occView) : V unit :=
  on_view self (SetProj V3d_Xpos).
Definition view_left (self : occView) : V unit :=
  on_view self (SetProj V3d_Yneg).
Definition view_right (self : occView) : V unit :=
  on_view self (SetProj V3d_Ypos).
Definition set_bg_color (self : occView) (r g b : Q) : V unit :=
  on_view self (SetBackgroundColor r g b).
Definition set_white_background (self : occView) : V unit :=
  on_view self (SetBackgroundColor 1%Q 1%Q 1%Q).
Definition capture (self : occView) (fn : string) : V unit :=
  on_view self (Dump fn).

Definition invoke (self : occView) (h : handler) : V unit :=
  match h with
  | bound_FitAll _ => (Ok tt, [FitAll])
  | bound_view_iso => view_iso self
  | bound_view_top => view_top self
  end.

Definition resizeEvent (self : occView) : V unit :=
  if is_None (my_view self) then on_view self MustBeResized else (Ok tt, []).

(** [try: self._keys[e.key()]() except KeyError: pass] *)
Definition keyPressEvent (self : occView) (key : Z) : V unit :=
  match _keys self with
  | None => (Raise (AttributeError "_keys"), [])
  | Some keys =>
      let attempt :=
        match keys !! key with
        | Some h => invoke self h
        | None => (Raise KeyError, [])
        end in
      match attempt with
      | (Raise KeyError, calls) => (Ok tt, calls)
      | r => r
      end
  end.

Definition wheelEvent (self : occView) (delta : Z) : V unit :=
  let zoom := if 0 <? delta then (3 # 2)%Q else (3 # 4)%Q in
  on_view self (SetZoom zoom).

(** [raise NotImplemented('Need gl2ps library.')]: [NotImplemented] is a
    constant, not an exception class, so the call that should build the
    exception fails itself. *)
Definition export_pdf (self : occView) (fn : string) : V unit :=
  (Raise (TypeError "'NotImplementedType' object is not callable"), []).

End Viewer.

(* ===================================================================== *)
(** * afem/graphics/viewer.py: paint and mouse events *)
(* ===================================================================== *)

Module Events.

Import Viewer.

(** [paintEvent]: the first paint runs [init]; [view] and [context] are the
    objects the kernel would create then. *)
Definition paintEvent (view context : N) (self : occView)
  : V unit * occView :=
  let '(self, calls) :=
    if is_None (my_context self) then init view context self
    else (self, []) in
  let '(r, redraw) := on_view self Redraw in
  ((r, calls ++ redraw), self).

(** The value of [e.buttons()]: exactly the left, the middle or the right
    button, or anything else (none, or several at once). *)
Inductive MouseButtons :=
| LeftButton | MidButton | RightButton | OtherButtons.

(** The calls the mouse handlers make on the view. *)
Inductive rotation_call :=
| StartRotation (x y : Z)
| Rotation (x y : Z)
| Pan (dx dy : Z).

(** The attributes [_x0] and [_y0] of the widget. *)
Record pointer := mkPointer { _x0 : Z; _y0 : Z }.

(** [__init__] sets both to zero. *)
Definition pointer_init : pointer := {| _x0 := 0; _y0 := 0 |}.

Definition R (A : Type) : Type := outcome A * list rotation_call.

(** A method call on [self.my_view]; [None] has no methods. *)
Definition on_view_mouse (self : occView) (c : rotation_call) : R unit :=
  match my_view self with
  | PNone => (Raise (AttributeError "NoneType"), [])
  | _ => (Ok tt, [c])
  end.

Definition mousePressEvent (self : occView) (p : pointer) (x y : Z)
  : R unit * pointer :=
  let p := {| _x0 := x; _y0 := y |} in
  (on_view_mouse self (StartRotation x y), p).

Definition mouseDoubleClickEvent (self : occView) (p : pointer) (x y : Z)
  : R unit * pointer :=
  let p := {| _x0 := x; _y0 := y |} in
  (on_view_mouse self (StartRotation x y), p).

Definition mouseMoveEvent (self : occView) (p : pointer)
    (button : MouseButtons) (x y : Z) : R unit * pointer :=
  match button with
  | LeftButton => (on_view_mouse self (Rotation x y), p)
  | MidButton | RightButton =>
      let dx := x - _x0 p in
      let dy := y - _y0 p in
      let p := {| _x0 := x; _y0 := y |} in
      (on_view_mouse self (Pan dx (- dy)), p)
  | OtherButtons => ((Ok tt, []), p)
  end.

(** A run of move events, each handled in turn: the calls made and the
    pointer attributes left. *)
Fixpoint mouse_moves (self : occView) (p : pointer)
    (moves : list (MouseButtons * Z * Z)) : list rotation_call * pointer :=
  match moves with
  | [] => ([], p)
  | (button, x, y) :: rest =>
      let '((_, calls), p) := mouseMoveEvent self p button x y in
      let '(more, p) := mouse_moves self p rest in
      (calls ++ more, p)
  end.

(** The sum of the pans among the calls. *)
Fixpoint panned (calls : list rotation_call) : Z * Z :=
  match calls with
  | [] => (0, 0)
  | Pan dx dy :: rest => let '(sx, sy) := panned rest in (dx + sx, dy + sy)
  | _ :: rest => panned rest
  end.

End Events.

(* ===================================================================== *)
(** * Vocabulary of the statements *)
(* ===================================================================== *)

Import Create.


(** The shape made of the faces of [shape]. *)
Definition faces_shape (K : Kernel) (shape : value) : value :=
  kval K ShapeByFaces_shape [PList (kseq K ExploreShape_get_faces [shape])].


(** What one turn of a loop does to the loop variables. *)
Definition appends_one (label delimiter : string)
    (body : value -> list Part * Z -> M (list Part * Z)) : Prop :=
  forall pln acc idx acc' idx',
    result (body pln (acc, idx)) = Ok (acc', idx') ->
    idx' = idx + 1 /\
    exists part, acc' = acc ++ [part] /\
                 part_label part = label +:+ delimiter +:+ str idx.


(** ** Inputs to run the code on *)

(** A parser that finds one body, a wing. *)
Definition demo_import (fn : string) (divide_closed : bool)
  : outcome (gmap string value) :=
  Ok {[ "wing" := a_wing ]}.


Definition demo_frames : multi_call :=
  call_FramesByPlanes "frame" [a_plane 1; a_plane 2] a_fuselage (3 # 2) 5 "-".

(** The same part under another class. *)
Definition recast (c : category) (p : Part) : Part :=
  mkPart c (part_label p) (part_shape p) (part_cref p) (part_sref p).

(** A run in which every part built is recast. *)
Definition recast_run (c : category) (m : M Part) : M Part :=
  (match result m with
   | Ok p => Ok (recast c p)
   | Raise e => Raise e
   end,
   map (fun ev => match ev with
                  | ENew p => ENew (recast c p)
                  | ECall f args => ECall f args
                  end) (log m)).

(** The builders that validate all they validate before their first call
    into the kernel. *)
Definition validates_first (c : plain_call) : bool :=
  match c with
  | call_CurvePartByShape _ _ _ | call_BeamByShape _ _ _
  | call_SurfacePartByShape _ _ _ _
  | call_SkinBySolid _ _ _ | call_SkinByBody _ _ _ => true
  | _ => false
  end.

(** The face a [...ByParameters] builder intersects with the wing. *)
Definition basis_face (K : Kernel) (u1 v1 u2 v2 wing basis_shape : value)
  : value :=
  if is_None basis_shape then
    kval K FaceBySurface_face [kval K extract_plane [wing; u1; v1; u2; v2]]
  else if isinstance K basis_shape [Surface] then
    kval K FaceBySurface_face [basis_shape]
  else basis_shape.

(** The planes a multi-part builder runs over. *)
Definition planes_of (K : Kernel) (c : multi_call) : list value :=
  match c with
  | call_RibsBetweenPlanesByNumber _ p1 p2 n _ _ _ d1 d2 _ _ =>
      aseq K (kval K PlanesBetweenPlanesByNumber [p1; p2; PInt n; d1; d2])
        planes
  | call_RibsBetweenPlanesByDistance _ p1 p2 m _ _ _ d1 d2 nm _ _ =>
      aseq K (kval K PlanesBetweenPlanesByDistance [p1; p2; m; d1; d2; nm])
        planes
  | call_RibsAlongCurveByNumber _ c n _ _ _ r u1 u2 d1 d2 _ _ t =>
      aseq K (kval K PlanesAlongCurveByNumber
                [c; PInt n; r; u1; u2; d1; d2; t]) planes
  | call_RibsAlongCurveByDistance _ c m _ _ _ r u1 u2 d1 d2 nm _ _ t =>
      aseq K (kval K PlanesAlongCurveByDistance
                [c; m; r; u1; u2; d1; d2; nm; t]) planes
  | call_FramesBetweenPlanesByNumber _ p1 p2 n _ _ d1 d2 _ _ =>
      aseq K (kval K PlanesBetweenPlanesByNumber [p1; p2; PInt n; d1; d2])
        planes
  | call_FramesBetweenPlanesByDistance _ p1 p2 m _ _ d1 d2 nm _ _ =>
      aseq K (kval K PlanesBetweenPlanesByDistance [p1; p2; m; d1; d2; nm])
        planes
  | call_FramesByPlanes _ plns _ _ _ _ => plns
  end.

(** What one turn of a loop does: one part more, built in that turn. *)
Definition builds_one (label delimiter : string)
    (body : value -> list Part * Z -> M (list Part * Z)) : Prop :=
  forall pln acc idx acc' idx',
    result (body pln (acc, idx)) = Ok (acc', idx') ->
    idx' = idx + 1 /\
    exists part, acc' = acc ++ [part] /\
                 part_label part = label +:+ delimiter +:+ str idx /\
                 created (log (body pln (acc, idx))) = [part].

(** A kernel that tells planes apart: the face of a plane carries the
    plane's handle, and the common of the face with handle 2 fails. *)
Definition demo_second_fails : Kernel :=
  {| subclass := demo_subclass;
     kval := fun f args =>
       match f, args with
       | FaceBySurface_face, [PObj _ h] => PObj TopoDS_Face h
       | CommonShapes, [PObj _ h; _] =>
           PObj OtherClass (if N.eqb h 2 then 0 else 1)%N
       | _, _ => kval demo_ok f args
       end;
     kseq := kseq demo_ok;
     kpair := kpair demo_ok;
     knum := knum demo_ok;
     aval := aval demo_ok;
     aseq := aseq demo_ok |}.

Definition demo_more_frames : multi_call :=
  call_FramesByPlanes "frame" [a_plane 3] a_fuselage (3 # 2) 7 "-".

(* ===================================================================== *)
(** * Properties *)
(* ===================================================================== *)

(** ** The importer *)

Lemma get_body_lookup (d : gmap string value) (name : string) :
  Importer.get_body d name = Ok (default PNone (d !! name)).
Proof.
  unfold Importer.get_body, Importer.getitem.
  destruct (d !! name); reflexivity.
Qed.

(** C4.  All class methods of [ImportVSP] work on the one dictionary
    [_bodies].  After a successful [step_file] every parsed body is returned
    by [get_body] under its name, a body imported earlier under a name the
    file does not use is still returned, [get_body] answers [None] for a name
    that is not in the dictionary and never raises, [get_bodies] is that very
    dictionary, and after [clear] it is empty. *)
Theorem importer_shared_mapping
    (import_vsp_step : string -> bool -> outcome (gmap string value))
    (old parsed : gmap string value) (fn : string) (divide_closed : bool)
    (Hparsed : import_vsp_step fn divide_closed = Ok parsed) :
  let run := Importer.step_file import_vsp_step old fn divide_closed in
  fst run = Ok true /\
  (forall name b, parsed !! name = Some b ->
     Importer.get_body (snd run) name = Ok b) /\
  (forall name b, old !! name = Some b -> parsed !! name = None ->
     Importer.get_body (snd run) name = Ok b) /\
  (forall name, snd run !! name = None ->
     Importer.get_body (snd run) name = Ok PNone) /\
  (forall name, exists v, Importer.get_body (snd run) name = Ok v) /\
  Importer.get_bodies (snd run) = snd run /\
  Importer.clear (snd run) = (Ok true, ∅) /\
  (forall name, Importer.get_body (snd (Importer.clear (snd run))) name
                = Ok PNone).
Proof.
  unfold Importer.step_file. rewrite Hparsed. cbn [fst snd].
  split; [reflexivity|].
  split.
  { intros name b Hb. rewrite get_body_lookup.
    by rewrite (lookup_union_Some_l _ _ _ _ Hb). }
  split.
  { intros name b Hold Hnew. rewrite get_body_lookup.
    by rewrite lookup_union_r, Hold. }
  split.
  { intros name Hnone. by rewrite get_body_lookup, Hnone. }
  split.
  { intros name. rewrite get_body_lookup. eauto. }
  split; [reflexivity|].
  split; [reflexivity|].
  intros name. rewrite get_body_lookup. unfold Importer.clear. cbn [snd].
  by rewrite lookup_empty.
Qed.

Lemma importer_shared_mapping_witness :
  Importer.get_body
    (snd (Importer.step_file demo_import
            {[ "fuselage" := Create.a_fuselage ]} "model.stp" true))
    "fuselage" = Ok Create.a_fuselage
  /\ Importer.get_body
       (snd (Importer.step_file demo_import
               {[ "fuselage" := Create.a_fuselage ]} "model.stp" true))
       "wing" = Ok Create.a_wing.
Proof.
  pose proof (importer_shared_mapping demo_import
                {[ "fuselage" := Create.a_fuselage ]}
                {[ "wing" := Create.a_wing ]} "model.stp" true eq_refl)
    as (_ & Hnew & Hold & _).
  split.
  - apply Hold; reflexivity.
  - apply Hnew; reflexivity.
Defined.

(** ** Colors *)





(** ** Mirrors *)



(** A mirror that is not an object makes [get_mirrored] raise. *)
Lemma get_mirrored_ill_typed (T : Transform) (this : value) :
  Patch._get_mirrored T this
    (Patch._set_mirror Patch.TopoDS_Shape_defaults (PInt 5))
    = Raise (AttributeError "Pln").
Proof. reflexivity. Qed.

(** ** The view widget *)

Lemma keys_after_init (view context : N) (self : Viewer.occView) :
  Viewer._keys (fst (Viewer.init view context self))
  = Some {[ 70 := Viewer.bound_FitAll (PObj OtherClass view);
            73 := Viewer.bound_view_iso;
            84 := Viewer.bound_view_top ]}.
Proof. reflexivity. Qed.

(** C7.  On a widget that [init] has set up, a key press with the code of
    'F' calls [FitAll], 'I' sets the isometric projection, 'T' the top
    projection, every other key calls nothing and raises nothing; a wheel
    event sets the zoom 1.5 for a positive delta and 0.75 for any other. *)
Theorem viewer_forwards_events (view context : N) (old : Viewer.occView) :
  let self := fst (Viewer.init view context old) in
  Viewer.keyPressEvent self (Viewer.ord "F")
    = (Ok tt, [Viewer.FitAll]) /\
  Viewer.keyPressEvent self (Viewer.ord "I")
    = (Ok tt, [Viewer.SetProj Viewer.V3d_XposYposZpos]) /\
  Viewer.keyPressEvent self (Viewer.ord "T")
    = (Ok tt, [Viewer.SetProj Viewer.V3d_Zpos]) /\
  (forall key,
     key <> Viewer.ord "F" -> key <> Viewer.ord "I" ->
     key <> Viewer.ord "T" ->
     Viewer.keyPressEvent self key = (Ok tt, [])) /\
  (forall delta,
     Viewer.wheelEvent self delta
     = (Ok tt, [Viewer.SetZoom (if 0 <? delta then 3 # 2 else 3 # 4)%Q])).
Proof.
  cbv zeta. unfold Viewer.keyPressEvent. rewrite keys_after_init.
  split; [reflexivity|]. split; [reflexivity|]. split; [reflexivity|].
  split.
  - intros key HF HI HT.
    change (Viewer.ord "F") with 70 in HF.
    change (Viewer.ord "I") with 73 in HI.
    change (Viewer.ord "T") with 84 in HT.
    rewrite !lookup_insert_ne by congruence.
    by rewrite lookup_singleton_ne.
  - reflexivity.
Qed.

Lemma viewer_forwards_events_witness :
  Viewer.keyPressEvent (fst (Viewer.init 1 2 Viewer.occView_init)) 65
  = (Ok tt, []).
Proof.
  apply (viewer_forwards_events 1 2 Viewer.occView_init); discriminate.
Defined.

(** Before [init] has run the widget has neither a view nor a keyboard map:
    a key press or a resize then ends in an [AttributeError]. *)
Lemma viewer_events_before_init :
  Viewer.keyPressEvent Viewer.occView_init (Viewer.ord "F")
    = (Raise (AttributeError "_keys"), []) /\
  Viewer.resizeEvent Viewer.occView_init
    = (Raise (AttributeError "NoneType"), []).
Proof. split; reflexivity. Qed.

(** [export_pdf] raises whatever it is given. *)
Lemma export_pdf_raises (self : Viewer.occView) (fn : string) :
  exists e, fst (Viewer.export_pdf self fn) = Raise e /\ ~ Create.documented e.
Proof.
  eexists. split; [reflexivity|].
  unfold Create.documented, Create.validation_error, Create.boolean_error.
  intros [H | H]; discriminate.
Qed.

(** ** The builders *)

(** Unfolds the monad, leaving kernel answers and type tests as they are. *)
Ltac run_monad :=
  cbv beta iota zeta delta
    [bind ret raise emit call call_seq call_pair call_num new_part first
     result log raised fst snd app _validate_type];
  cbn [negb andb truthy is_None].

(** Case analysis on every test a builder makes. *)
Ltac crunch :=
  repeat (run_monad;
          match goal with
          | |- context [truthy ?x] => destruct (truthy x) eqn:?
          | |- context [isinstance ?K ?v ?t] => destruct (isinstance K v t) eqn:?
          | |- context [is_None ?v] => destruct (is_None v) eqn:?
          | |- context [kpair ?K ?f ?a] => destruct (kpair K f a) eqn:?
          | |- context [if ?c then _ else _] => destruct c eqn:?
          | |- context [match ?l with [] => _ | _ :: _ => _ end] =>
              destruct l eqn:?
          end);
  run_monad.

(** C2.  [SparByParameters] without a basis shape: when the wing is a [Wing]
    and the kernel reports the common operation done, a spar is built; and
    the spar built has the plane [wing.extract_plane(u1, v1, u2, v2)] as
    reference surface, [wing.extract_curve(u1, v1, u2, v2, face)] as
    reference curve, [face] being the face of that plane, and as shape the
    shape made of the faces of the common of [face] and the wing. *)
Theorem spar_by_parameters_plane (K : Kernel) (label : string)
    (u1 v1 u2 v2 wing : value) :
  let pln := kval K extract_plane [wing; u1; v1; u2; v2] in
  let face := kval K FaceBySurface_face [pln] in
  let common := kval K CommonShapes [face; wing] in
  let run := SparByParameters K label u1 v1 u2 v2 wing PNone in
  (isinstance K wing [Wing] = true ->
   truthy (aval K common is_done) = true ->
   exists spar, result run = Ok spar) /\
  (forall spar, result run = Ok spar ->
     part_category spar = Spar /\
     part_label spar = label /\
     part_sref spar = pln /\
     part_cref spar = kval K extract_curve [wing; u1; v1; u2; v2; face] /\
     part_shape spar =
       kval K ShapeByFaces_shape
         [PList (kseq K ExploreShape_get_faces [aval K common shape_])]).
Proof.
  cbv zeta. unfold SparByParameters. run_monad.
  destruct (isinstance K wing [Wing]); run_monad.
  - destruct (truthy (aval K (kval K CommonShapes _) is_done)) eqn:Hdone;
      run_monad.
    + split.
      * intros _ _. eexists. reflexivity.
      * intros spar [= <-]. repeat split.
    + split; intros; discriminate.
  - split; intros; discriminate.
Qed.

Lemma spar_by_parameters_plane_witness :
  exists spar,
    result (SparByParameters demo_ok "spar" (PNum 0) (PNum 0) (PNum 1)
              (PNum 0) a_wing PNone) = Ok spar.
Proof.
  apply (spar_by_parameters_plane demo_ok "spar" (PNum 0) (PNum 0) (PNum 1)
           (PNum 0) a_wing); reflexivity.
Defined.

Lemma Qabs_opp_eq (q : Q) : Qabs (- q) = Qabs q.
Proof. destruct q as [n d]. unfold Qabs, Qopp. cbn. by rewrite Z.abs_opp. Qed.

(** C6.  A frame that [FrameByPlane] builds comes from this sequence of
    kernel calls: the face of the plane, its common with the fuselage, the
    closed wires along the free edges of the result, of which the longest is
    taken (the only one when there is just one), the planar offset of that
    wire by [-abs(height)], its concatenation, the planar face inside it, the
    cut of that face from the common shape, and the shape made of the faces
    left.  The frame's reference surface is the plane.  The run is the same
    for [height] and [-height], and for any two heights of equal absolute
    value. *)
Theorem frame_by_plane_sequence (K : Kernel) (label : string)
    (pln fuselage : value) (height : Q) :
  let face := kval K FaceBySurface_face [pln] in
  let common := aval K (kval K CommonShapes [face; fuselage]) shape_ in
  let wires := kseq K ExploreFreeEdges_closed_wires [common] in
  let run := FrameByPlane K label pln fuselage height in
  (forall frame, result run = Ok frame ->
     exists outer_wire,
       (if (1 <? length wires)%nat
        then outer_wire = kval K LengthOfShapes_longest_shape [PList wires]
        else wires !! 0%nat = Some outer_wire) /\
       let offset :=
         kval K WireByPlanarOffset_wire [outer_wire; PNum (- Qabs height)] in
       let inner_wire := kval K WireByConcat_wire [offset] in
       let inner_face := kval K FaceByPlanarWire_face [inner_wire] in
       let cut := aval K (kval K CutShapes [common; inner_face]) shape_ in
       let faces := kseq K ExploreShape_get_faces [cut] in
       log run =
         [ECall FaceBySurface_face [pln];
          ECall CommonShapes [face; fuselage];
          ECall ExploreFreeEdges_closed_wires [common]]
         ++ (if (1 <? length wires)%nat
             then [ECall LengthOfShapes_longest_shape [PList wires]]
             else [])
         ++ [ECall WireByPlanarOffset_wire [outer_wire; PNum (- Qabs height)];
             ECall WireByConcat_wire [offset];
             ECall FaceByPlanarWire_face [inner_wire];
             ECall CutShapes [common; inner_face];
             ECall ExploreShape_get_faces [cut];
             ECall ShapeByFaces_shape [PList faces];
             ENew frame] /\
       frame = mkPart Frame label
                 (kval K ShapeByFaces_shape [PList faces]) PNone pln) /\
  FrameByPlane K label pln fuselage (- height) = run /\
  (forall height', Qabs height' = Qabs height ->
     FrameByPlane K label pln fuselage height' = run).
Proof.
  cbv zeta. split; [|split].
  - unfold FrameByPlane. run_monad.
    destruct (isinstance K pln [Plane]); run_monad; [|discriminate].
    destruct (isinstance K fuselage [Fuselage]); run_monad; [|discriminate].
    destruct (truthy (aval K (kval K CommonShapes _) is_done));
      run_monad; [|discriminate].
    destruct (1 <? length _)%nat eqn:Hlen; run_monad.
    + destruct (truthy (aval K (kval K CutShapes _) is_done));
        run_monad; [|discriminate].
      intros frame [= <-]. eexists. split; [reflexivity|].
      split; reflexivity.
    + destruct (kseq K ExploreFreeEdges_closed_wires _) as [|w ws] eqn:Hws;
        run_monad; [discriminate|].
      destruct (truthy (aval K (kval K CutShapes _) is_done));
        run_monad; [|discriminate].
      intros frame [= <-]. exists w. split; [reflexivity|].
      split; reflexivity.
  - unfold FrameByPlane. by rewrite Qabs_opp_eq.
  - intros height' Habs. unfold FrameByPlane. by rewrite Habs.
Qed.

Lemma frame_by_plane_sequence_witness :
  exists outer_wire,
    outer_wire = a_wire /\
    result (FrameByPlane demo_ok "frame" (a_plane 1) a_fuselage (-(3 # 2)))
    = Ok (mkPart Frame "frame" (PObj TopoDS_Shape 1) PNone (a_plane 1)).
Proof.
  destruct (proj1 (frame_by_plane_sequence demo_ok "frame" (a_plane 1)
                     a_fuselage (-(3 # 2)))
              (mkPart Frame "frame" (PObj TopoDS_Shape 1) PNone (a_plane 1))
              eq_refl)
    as (outer_wire & Houter & _).
  exists outer_wire. split; [|reflexivity].
  cbn in Houter. congruence.
Defined.



Example boolean_failure_demo :
  let run := SparBySurface demo_failing "spar" (PObj Surface 1) a_wing in
  result run = Raise boolean_error /\ created (log run) = [].
Proof. split; reflexivity. Qed.




Section Loops.

Variable K : Kernel.

Lemma RibBetweenShapes_label (label : string)
    (shape1 shape2 wing basis_shape : value) (rib : Part) :
  result (RibBetweenShapes K label shape1 shape2 wing basis_shape) = Ok rib ->
  part_label rib = label.
Proof.
  unfold RibBetweenShapes, RibByPoints, RibByParameters.
  crunch; intros [= <-]; reflexivity.
Qed.

Lemma FrameByPlane_label (label : string) (pln fuselage : value)
    (height : Q) (frame : Part) :
  result (FrameByPlane K label pln fuselage height) = Ok frame ->
  part_label frame = label.
Proof.
  unfold FrameByPlane. crunch; intros [= <-]; reflexivity.
Qed.

Lemma rib_body_appends (label delimiter : string)
    (shape1 shape2 wing : value) :
  appends_one label delimiter (rib_body K label delimiter shape1 shape2 wing).
Proof.
  intros pln acc idx acc' idx'. unfold rib_body. run_monad.
  destruct (RibBetweenShapes K _ shape1 shape2 wing _)
    as [[rib|e] l] eqn:Hrib.
  - run_monad. intros [= <- <-].
    split; [reflexivity|]. exists rib. split; [reflexivity|].
    exact (RibBetweenShapes_label (join delimiter [label; str idx]) shape1
             shape2 wing _ rib (f_equal fst Hrib)).
  - run_monad. discriminate.
Qed.

Lemma frame_body_appends (label delimiter : string) (fuselage : value)
    (height : Q) :
  appends_one label delimiter (frame_body K label delimiter fuselage height).
Proof.
  intros pln acc idx acc' idx'. unfold frame_body. run_monad.
  destruct (FrameByPlane K _ pln fuselage height)
    as [[frame|e] l] eqn:Hframe.
  - run_monad. intros [= <- <-].
    split; [reflexivity|]. exists frame. split; [reflexivity|].
    exact (FrameByPlane_label (join delimiter [label; str idx]) pln fuselage
             height frame (f_equal fst Hframe)).
  - run_monad. discriminate.
Qed.

Lemma for_loop_indexing (label delimiter : string)
    (body : value -> list Part * Z -> M (list Part * Z))
    (Hbody : appends_one label delimiter body) (plns : list value) :
  forall acc idx acc' idx',
    result (for_loop plns (acc, idx) body) = Ok (acc', idx') ->
    idx' = idx + Z.of_nat (length plns) /\
    exists new,
      acc' = acc ++ new /\ length new = length plns /\
      forall (k : nat) part,
        new !! k = Some part ->
        part_label part = label +:+ delimiter +:+ str (idx + Z.of_nat k).
Proof.
  induction plns as [|pln plns IH]; intros acc idx acc' idx'.
  - cbn. intros [= <- <-]. split; [lia|]. exists [].
    split; [by rewrite app_nil_r|]. split; [reflexivity|].
    intros k part Hk. by rewrite lookup_nil in Hk.
  - cbn [for_loop]. unfold bind.
    destruct (body pln (acc, idx)) as [[[acc1 idx1]|e] l1] eqn:Hfirst;
      [|cbn; discriminate].
    destruct (for_loop plns (acc1, idx1) body) as [r l2] eqn:Hrest.
    cbn. intros ->.
    destruct (Hbody pln acc idx acc1 idx1) as (-> & part & -> & Hlabel).
    { unfold result. by rewrite Hfirst. }
    destruct (IH (acc ++ [part]) (idx + 1) acc' idx')
      as (-> & new & -> & Hlen & Hnew).
    { unfold result. by rewrite Hrest. }
    split; [cbn [length]; lia|]. exists (part :: new).
    split; [by rewrite <- app_assoc|]. split; [cbn; lia|].
    intros [|k] p Hk; cbn in Hk.
    + injection Hk as <-. by rewrite Z.add_0_r.
    + rewrite (Hnew k p Hk). do 3 f_equal. lia.
Qed.

End Loops.

Lemma result_bind_Ok {A B : Type} (m : M A) (k : A -> M B) (b : B) :
  result (bind m k) = Ok b ->
  exists a, result m = Ok a /\ result (k a) = Ok b.
Proof.
  unfold bind, result. destruct m as [[a|e] l1]; [|discriminate].
  destruct (k a) as [r l2] eqn:Hk. cbn. intros ->.
  exists a. by rewrite Hk.
Qed.

(** Splits a successful run at every bind; keeps what the loops returned. *)
Ltac peel H :=
  repeat (let a := fresh "a" in
          let Hs := fresh "Hstep" in
          apply result_bind_Ok in H as (a & Hs & H);
          try (lazymatch type of Hs with
               | result (for_loop _ (_, _) _) = _ => fail
               | _ => clear Hs
               end)).

Lemma loop_result_indexing (K : Kernel) (label delimiter : string)
    (body : value -> list Part * Z -> M (list Part * Z))
    (plns : list value) (first_index : Z) (looped : list Part * Z)
    (built : Parts) (nparts ds : value) :
  appends_one label delimiter body ->
  result (for_loop plns ([], first_index) body) = Ok looped ->
  built = mkParts (fst looped) nparts ds (snd looped) ->
  next_index built = first_index + Z.of_nat (length (parts built)) /\
  forall (k : nat) part,
    parts built !! k = Some part ->
    part_label part
    = label +:+ delimiter +:+ str (first_index + Z.of_nat k).
Proof.
  intros Hbody Hloop ->. destruct looped as [ribs idx]. cbn.
  destruct (for_loop_indexing label delimiter body Hbody plns [] first_index
              ribs idx Hloop) as (-> & new & -> & Hlen & Hnew).
  cbn. split; [by rewrite Hlen|exact Hnew].
Qed.

(** C9.  When a multi-part builder returns, [next_index] is [first_index]
    plus the number of parts in the list it built, and the part at position
    [k] of that list (from zero) carries the label
    [label + delimiter + str(first_index + k)]. *)
Theorem multi_part_indexing (K : Kernel) (c : multi_call) (built : Parts)
    (Hbuilt : result (run_multi K c) = Ok built) :
  next_index built
  = first_index_of c + Z.of_nat (length (parts built)) /\
  forall (k : nat) part,
    parts built !! k = Some part ->
    part_label part
    = label_of c +:+ delimiter_of c +:+ str (first_index_of c + Z.of_nat k).
Proof.
  destruct c; cbn [run_multi label_of first_index_of delimiter_of] in *.
  all: unfold RibsBetweenPlanesByNumber, RibsBetweenPlanesByDistance,
         RibsAlongCurveByNumber, RibsAlongCurveByDistance,
         FramesBetweenPlanesByNumber, FramesBetweenPlanesByDistance,
         FramesByPlanes in Hbuilt.
  all: peel Hbuilt.
  all: match goal with
       | Hloop : result (for_loop _ (_, _) _) = Ok ?looped |- _ =>
           destruct looped as [made idx]
       end.
  all: cbv beta iota in Hbuilt; peel Hbuilt; cbn in Hbuilt.
  all: injection Hbuilt as <-.
  all: match goal with
       | Hloop : result (for_loop _ (_, _) ?body) = Ok ?looped |- _ =>
           eapply (loop_result_indexing K _ _ body _ _ looped);
           [ first [apply rib_body_appends | apply frame_body_appends]
           | exact Hloop
           | reflexivity ]
       end.
Qed.

Lemma multi_part_indexing_witness :
  exists built,
    result (run_multi demo_ok demo_frames) = Ok built /\
    next_index built = 7 /\
    map part_label (parts built) = ["frame-5"; "frame-6"].
Proof.
  eexists. split; [reflexivity|].
  split.
  - apply (multi_part_indexing demo_ok demo_frames). reflexivity.
  - vm_compute. reflexivity.
Defined.

(** ** Which exceptions the builders raise *)

Section Documented.

Variable K : Kernel.














End Documented.






(* ===================================================================== *)
(** * Further properties *)
(* ===================================================================== *)

(** ** More on the importer *)

(** X1.  Importing a file a second time leaves the dictionary as it was
    after the first time.  After two imports [get_body] answers with the body
    of the later file, else with that of the earlier file, else with what was
    there before, else with [None]. *)
Theorem importer_reimport
    (import_vsp_step : string -> bool -> outcome (gmap string value))
    (old first second : gmap string value) (fn1 fn2 : string)
    (dc1 dc2 : bool)
    (Hfirst : import_vsp_step fn1 dc1 = Ok first)
    (Hsecond : import_vsp_step fn2 dc2 = Ok second) :
  let once := snd (Importer.step_file import_vsp_step old fn1 dc1) in
  let twice := snd (Importer.step_file import_vsp_step once fn2 dc2) in
  snd (Importer.step_file import_vsp_step once fn1 dc1) = once /\
  (forall name,
     Importer.get_body twice name
     = Ok (match second !! name with
           | Some b => b
           | None => match first !! name with
                     | Some b => b
                     | None => default PNone (old !! name)
                     end
           end)).
Proof.
  cbv zeta. unfold Importer.step_file. rewrite Hfirst, Hsecond. cbn [snd].
  split.
  - by rewrite (assoc (∪)), (idemp (∪)).
  - intros name. rewrite get_body_lookup. f_equal.
    destruct (second !! name) as [b|] eqn:H2.
    + by rewrite (lookup_union_Some_l _ _ _ _ H2).
    + rewrite lookup_union_r by done.
      destruct (first !! name) as [b|] eqn:H1.
      * by rewrite (lookup_union_Some_l _ _ _ _ H1).
      * by rewrite lookup_union_r.
Qed.

Lemma importer_reimport_witness :
  Importer.get_body
    (snd (Importer.step_file demo_import
            (snd (Importer.step_file demo_import
                    {[ "wing" := a_fuselage ]} "a.stp" true))
            "a.stp" false))
    "wing" = Ok a_wing.
Proof.
  apply (proj2 (importer_reimport demo_import {[ "wing" := a_fuselage ]}
                  {[ "wing" := a_wing ]} {[ "wing" := a_wing ]}
                  "a.stp" "a.stp" true false eq_refl eq_refl)).
Defined.

(** X2.  After [clear], a successful [step_file] leaves exactly the bodies
    of that file: a name known before and absent from the file is answered
    with [None]. *)
Theorem importer_clear_then_import
    (import_vsp_step : string -> bool -> outcome (gmap string value))
    (old parsed : gmap string value) (fn : string) (divide_closed : bool)
    (Hparsed : import_vsp_step fn divide_closed = Ok parsed) :
  let cleared := snd (Importer.clear old) in
  let fresh := snd (Importer.step_file import_vsp_step cleared fn
                      divide_closed) in
  Importer.get_bodies fresh = parsed /\
  (forall name, old !! name <> None -> parsed !! name = None ->
     Importer.get_body fresh name = Ok PNone).
Proof.
  cbv zeta. unfold Importer.step_file, Importer.clear, Importer.get_bodies.
  rewrite Hparsed. cbn [snd]. rewrite (right_id ∅ (∪)). split; [done|].
  intros name _ Hnone.
  by rewrite get_body_lookup, (right_id ∅ (∪)), Hnone.
Qed.

Lemma importer_clear_then_import_witness :
  Importer.get_body
    (snd (Importer.step_file demo_import
            (snd (Importer.clear {[ "fuselage" := a_fuselage ]}))
            "a.stp" true))
    "fuselage" = Ok PNone.
Proof.
  apply (proj2 (importer_clear_then_import demo_import
                  {[ "fuselage" := a_fuselage ]} {[ "wing" := a_wing ]}
                  "a.stp" true eq_refl)); done.
Defined.

(** ** Transparency and the setters *)



(** ** Resize, paint and mouse events *)

(** X4.  [resizeEvent] never calls [MustBeResized]: with a view it does
    nothing, without one it ends in an [AttributeError]. *)
Theorem resize_never_resizes (self : Viewer.occView) :
  ~ In Viewer.MustBeResized (snd (Viewer.resizeEvent self)) /\
  (Viewer.my_view self = PNone ->
   Viewer.resizeEvent self = (Raise (AttributeError "NoneType"), [])) /\
  (Viewer.my_view self <> PNone ->
   Viewer.resizeEvent self = (Ok tt, [])).
Proof.
  unfold Viewer.resizeEvent, Viewer.on_view.
  destruct (Viewer.my_view self); cbn; repeat split; try tauto; congruence.
Qed.

(** X5.  The first [paintEvent] of a new widget runs [init] and redraws;
    a later one only redraws and keeps the view.  From then on no key press
    and no wheel event raises, and [resizeEvent] does nothing. *)
Theorem first_paint_initialises (view context view' context' : N) :
  let first := Events.paintEvent view context Viewer.occView_init in
  let self := snd first in
  fst first
  = (Ok tt, snd (Viewer.init view context Viewer.occView_init)
            ++ [Viewer.Redraw]) /\
  Events.paintEvent view' context' self = ((Ok tt, [Viewer.Redraw]), self) /\
  (forall key, fst (Viewer.keyPressEvent self key) = Ok tt) /\
  (forall delta, fst (Viewer.wheelEvent self delta) = Ok tt) /\
  Viewer.resizeEvent self = (Ok tt, []).
Proof.
  cbv zeta. split; [reflexivity|]. split; [reflexivity|].
  split; [|split; reflexivity].
  intros key.
  change (snd (Events.paintEvent view context Viewer.occView_init))
    with (fst (Viewer.init view context Viewer.occView_init)).
  unfold Viewer.keyPressEvent. rewrite keys_after_init.
  match goal with
  | |- context [?keys !! key] => destruct (keys !! key) as [[v| |]|]
  end; reflexivity.
Qed.

Lemma mouse_moves_pan_sum (self : Viewer.occView)
    (moves : list (Events.MouseButtons * Z * Z)) :
  Viewer.my_view self <> PNone ->
  forall p,
    let run := Events.mouse_moves self p moves in
    Events._x0 (snd run) = Events._x0 p + fst (Events.panned (fst run)) /\
    Events._y0 (snd run) = Events._y0 p - snd (Events.panned (fst run)).
Proof.
  intros Hview. induction moves as [|[[button x] y] rest IH]; intros p.
  - cbn. lia.
  - cbn [Events.mouse_moves]. unfold Events.mouseMoveEvent, Events.on_view_mouse.
    destruct (Viewer.my_view self) eqn:Hv; [congruence|..];
      destruct button; cbv zeta;
      match goal with
      | |- context [Events.mouse_moves self ?q rest] =>
          specialize (IH q); cbv zeta in IH;
          destruct (Events.mouse_moves self q rest) as [more q']
      end;
      cbn [fst snd app Events.panned Events._x0 Events._y0] in *;
      try (destruct (Events.panned more) as [sx sy]);
      cbn [fst snd] in *; lia.
Qed.

(** X6.  On a widget with a view, a press starts a rotation; over any run
    of move events after it the pans add up to the way from the pressed
    point to the point of the last pan, the vertical part negated.  When the
    last move is a pan, that is the way to the last point. *)
Theorem drag_pans_follow_pointer (self : Viewer.occView)
    (p : Events.pointer) (x y : Z)
    (moves : list (Events.MouseButtons * Z * Z))
    (Hview : Viewer.my_view self <> PNone) :
  let pressed := snd (Events.mousePressEvent self p x y) in
  let run := Events.mouse_moves self pressed moves in
  fst (Events.mousePressEvent self p x y)
    = (Ok tt, [Events.StartRotation x y]) /\
  fst (Events.panned (fst run)) = Events._x0 (snd run) - x /\
  snd (Events.panned (fst run)) = - (Events._y0 (snd run) - y) /\
  (forall button x' y',
     last moves = Some (button, x', y') ->
     button = Events.MidButton \/ button = Events.RightButton ->
     fst (Events.panned (fst run)) = x' - x /\
     snd (Events.panned (fst run)) = - (y' - y)).
Proof.
  cbv zeta.
  pose proof (mouse_moves_pan_sum self moves Hview
                (snd (Events.mousePressEvent self p x y))) as Hsum.
  cbv zeta in Hsum. cbn [Events.mousePressEvent snd Events._x0 Events._y0] in *.
  destruct Hsum as [Hx Hy].
  split.
  { unfold Events.mousePressEvent, Events.on_view_mouse. cbn [fst].
    destruct (Viewer.my_view self); [congruence|reflexivity..]. }
  split; [lia|]. split; [lia|].
  intros button x' y' Hlast Hpan.
  assert (Events._x0 (snd (Events.mouse_moves self
                             {| Events._x0 := x; Events._y0 := y |} moves)) = x'
          /\ Events._y0 (snd (Events.mouse_moves self
                                {| Events._x0 := x; Events._y0 := y |} moves)) = y')
    as [Hx' Hy'].
  { clear Hx Hy.
    generalize {| Events._x0 := x; Events._y0 := y |}.
    induction moves as [|[[b mx] my] rest IH]; intros q; [discriminate|].
    cbn [Events.mouse_moves].
    destruct rest as [|next rest].
    - cbn in Hlast. injection Hlast as -> -> ->.
      unfold Events.mouseMoveEvent.
      destruct Hpan as [-> | ->]; cbn;
        destruct (Events.on_view_mouse self _); cbn; auto.
    - specialize (IH Hlast).
      unfold Events.mouseMoveEvent.
      destruct b; cbv zeta;
        match goal with
        | |- context [Events.on_view_mouse self ?c] =>
            destruct (Events.on_view_mouse self c)
        | _ => idtac
        end;
        match goal with
        | |- context [Events.mouse_moves self ?q' (next :: rest)] =>
            specialize (IH q');
            destruct (Events.mouse_moves self q' (next :: rest))
        end; cbn [fst snd] in *; exact IH. }
  lia.
Qed.

Lemma drag_pans_follow_pointer_witness :
  Events.panned
    (fst (Events.mouse_moves (fst (Viewer.init 1 2 Viewer.occView_init))
            {| Events._x0 := 1; Events._y0 := 1 |}
            [(Events.RightButton, 5, 7); (Events.LeftButton, 9, 9);
             (Events.MidButton, 8, 3)]))
  = (8 - 1, - (3 - 1)).
Proof.
  destruct (drag_pans_follow_pointer
              (fst (Viewer.init 1 2 Viewer.occView_init)) Events.pointer_init
              1 1
              [(Events.RightButton, 5, 7); (Events.LeftButton, 9, 9);
               (Events.MidButton, 8, 3)])
    as (_ & _ & _ & Hlast); [discriminate|].
  destruct (Hlast Events.MidButton 8 3 eq_refl (or_introl eq_refl))
    as [Hx Hy].
  apply injective_projections; [exact Hx | exact Hy].
Defined.

(** ** Outcomes of the builders *)

(** X7.  [SparByParameters] and [RibByParameters] end in one of three
    ways: the validation error when the wing is no [Wing] or the basis shape
    is true and of no accepted class (a false one passes whatever it is),
    then without any call to the kernel; the Boolean error when the common of
    the basis face with the wing is not done; a part otherwise. *)
Theorem by_parameters_outcome (K : Kernel) (label : string)
    (u1 v1 u2 v2 wing basis_shape : value) :
  let accepted :=
    isinstance K wing [Wing] &&
    (negb (truthy basis_shape) ||
     isinstance K basis_shape [Surface; TopoDS_Face; TopoDS_Shell]) in
  let face := basis_face K u1 v1 u2 v2 wing basis_shape in
  let done := truthy (aval K (kval K CommonShapes [face; wing]) is_done) in
  let outcome_ :=
    if negb accepted then Some validation_error
    else if negb done then Some boolean_error
    else None in
  raised (SparByParameters K label u1 v1 u2 v2 wing basis_shape) = outcome_ /\
  raised (RibByParameters K label u1 v1 u2 v2 wing basis_shape) = outcome_ /\
  (accepted = false ->
   log (SparByParameters K label u1 v1 u2 v2 wing basis_shape) = [] /\
   log (RibByParameters K label u1 v1 u2 v2 wing basis_shape) = []).
Proof.
  cbv zeta. unfold basis_face, SparByParameters, RibByParameters.
  crunch; cbn [negb andb orb]; repeat split; intros; try reflexivity;
    try discriminate.
Qed.

(** X8.  The rib builders run as the spar builders do and build the same
    part as a [Rib]; likewise [FloorBySurface] and [BulkheadBySurface],
    [BeamByShape] and [CurvePartByShape]. *)
Theorem twin_builders (K : Kernel) (label : string) :
  (forall u1 v1 u2 v2 wing basis_shape,
     RibByParameters K label u1 v1 u2 v2 wing basis_shape
     = recast_run Rib (SparByParameters K label u1 v1 u2 v2 wing basis_shape)) /\
  (forall p1 p2 wing basis_shape,
     RibByPoints K label p1 p2 wing basis_shape
     = recast_run Rib (SparByPoints K label p1 p2 wing basis_shape)) /\
  (forall srf wing,
     RibBySurface K label srf wing
     = recast_run Rib (SparBySurface K label srf wing)) /\
  (forall shape1 shape2 wing basis_shape,
     RibBetweenShapes K label shape1 shape2 wing basis_shape
     = recast_run Rib
         (SparBetweenShapes K label shape1 shape2 wing basis_shape)) /\
  (forall srf fuselage,
     FloorBySurface K label srf fuselage
     = recast_run Floor (BulkheadBySurface K label srf fuselage)) /\
  (forall shape cref,
     BeamByShape K label shape cref
     = recast_run Beam (CurvePartByShape K label shape cref)).
Proof.
  repeat split; intros;
    unfold recast_run, RibBetweenShapes, SparBetweenShapes, RibByPoints,
      SparByPoints, RibByParameters, SparByParameters, RibBySurface,
      SparBySurface, FloorBySurface, BulkheadBySurface, BeamByShape,
      CurvePartByShape;
    crunch; reflexivity.
Qed.

(** X9.  When one of the seven Boolean builders, [CurvePartByShape],
    [BeamByShape], [SurfacePartByShape], [SkinBySolid] or [SkinByBody] raises
    the validation error, it has made no call to the kernel. *)
Theorem rejected_before_any_call (K : Kernel) :
  (forall c, raised (run_boolean K c) = Some validation_error ->
     log (run_boolean K c) = []) /\
  (forall c, validates_first c = true ->
     raised (run_plain K c) = Some validation_error ->
     log (run_plain K c) = []).
Proof.
  split; intros c; destruct c; cbn [run_boolean run_plain validates_first];
    try discriminate.
  all: unfold SparByParameters, RibByParameters, SparBySurface, RibBySurface,
         BulkheadBySurface, FloorBySurface, FrameByPlane, CurvePartByShape,
         BeamByShape, SurfacePartByShape, SkinByBody, SkinBySolid.
  all: crunch; intros; first [reflexivity | discriminate].
Qed.

Lemma rejected_before_any_call_witness :
  log (run_boolean demo_ok
         (call_FrameByPlane "frame" (a_plane 1) a_wing (3 # 2))) = [].
Proof.
  apply (proj1 (rejected_before_any_call demo_ok)). reflexivity.
Defined.

(** X10.  [BeamByPoints] converts both points, fits a curve through them
    and makes its edge; when these are two points, a curve and an edge, the
    beam has the edge as shape and the fitted curve as reference curve, and
    nothing else is asked of the kernel.  [BeamByCurve] on that curve builds
    the same beam. *)
Theorem beam_by_points_chain (K : Kernel) (label : string) (p1 p2 : value) :
  let q1 := kval K CheckGeom_to_point [p1] in
  let q2 := kval K CheckGeom_to_point [p2] in
  let c := kval K NurbsCurveByPoints_curve [PList [q1; q2]] in
  let e := kval K EdgeByCurve_edge [c] in
  isinstance K q1 [Point] = true ->
  isinstance K q2 [Point] = true ->
  isinstance K c [Curve] = true ->
  isinstance K e [Curve; TopoDS_Edge; TopoDS_Wire] = true ->
  isinstance K e [Curve] = false ->
  BeamByPoints K label p1 p2
  = (Ok (mkPart Beam label e c PNone),
     [ECall CheckGeom_to_point [p1];
      ECall CheckGeom_to_point [p2];
      ECall NurbsCurveByPoints_curve [PList [q1; q2]];
      ECall EdgeByCurve_edge [c];
      ENew (mkPart Beam label e c PNone)]) /\
  BeamByCurve K label c
  = (Ok (mkPart Beam label e c PNone),
     [ECall EdgeByCurve_edge [c]; ENew (mkPart Beam label e c PNone)]).
Proof.
  cbv zeta. intros Hq1 Hq2 Hc He Hnot.
  assert (Hobj : truthy (kval K NurbsCurveByPoints_curve
                           [PList [kval K CheckGeom_to_point [p1];
                                   kval K CheckGeom_to_point [p2]]]) = true).
  { unfold isinstance in Hc.
    destruct (kval K NurbsCurveByPoints_curve _); try discriminate.
    reflexivity. }
  assert (Hnone : is_None (kval K NurbsCurveByPoints_curve
                           [PList [kval K CheckGeom_to_point [p1];
                                   kval K CheckGeom_to_point [p2]]]) = false).
  { unfold isinstance in Hc.
    destruct (kval K NurbsCurveByPoints_curve _); try discriminate.
    reflexivity. }
  unfold BeamByPoints, BeamByCurve, BeamByShape. run_monad.
  rewrite Hq1, Hq2, Hc, He, Hnot, Hobj, Hnone. run_monad.
  split; reflexivity.
Qed.

Lemma beam_by_points_chain_witness :
  result (BeamByPoints demo_ok "beam" (PList [PNum 0; PNum 0; PNum 0])
            (PList [PNum 10; PNum 0; PNum 0]))
  = Ok (mkPart Beam "beam" (PObj TopoDS_Edge 1) (PObj Curve 1) PNone).
Proof.
  exact (f_equal fst
           (proj1 (beam_by_points_chain demo_ok "beam"
                     (PList [PNum 0; PNum 0; PNum 0])
                     (PList [PNum 10; PNum 0; PNum 0])
                     eq_refl eq_refl eq_refl eq_refl eq_refl))).
Defined.

(** X11.  [SkinBySolid] raises the validation error exactly when the solid
    is no [TopoDS_Solid]; [SkinByBody] also when the body is no [Body].  A
    skin has neither reference curve nor reference surface, and what
    [SkinByBody] builds [SkinBySolid] builds too. *)
Theorem skin_outcome (K : Kernel) (label : string) (body : value)
    (copy : bool) :
  raised (SkinBySolid K label body copy)
  = (if isinstance K body [TopoDS_Solid] then None
     else Some validation_error) /\
  raised (SkinByBody K label body copy)
  = (if isinstance K body [Body] && isinstance K body [TopoDS_Solid]
     then None else Some validation_error) /\
  (forall skin,
     result (SkinByBody K label body copy) = Ok skin ->
     SkinBySolid K label body copy = SkinByBody K label body copy /\
     part_category skin = Skin /\ part_label skin = label /\
     part_cref skin = PNone /\ part_sref skin = PNone).
Proof.
  unfold SkinByBody, SkinBySolid.
  crunch; cbn [andb]; (split; [reflexivity|]); (split; [reflexivity|]);
    intros skin Hskin; try discriminate;
    injection Hskin as <-; repeat split.
Qed.

(** ** The parts of a multi-part builder *)

Lemma created_app (l1 l2 : list event) :
  created (l1 ++ l2) = created l1 ++ created l2.
Proof.
  induction l1 as [|[f args|p] l1 IH]; cbn; [done|done|by rewrite IH].
Qed.

Lemma log_bind_Ok {A B : Type} (m : M A) (k : A -> M B) (a : A) :
  result m = Ok a -> log (bind m k) = log m ++ log (k a).
Proof.
  unfold result, log, bind. destruct m as [[a'|e] l1]; cbn; [|discriminate].
  intros [= ->]. by destruct (k a).
Qed.

Lemma created_bind {A B : Type} (m : M A) (k : A -> M B) (a : A) :
  result m = Ok a ->
  created (log (bind m k)) = created (log m) ++ created (log (k a)).
Proof. intros H. by rewrite (log_bind_Ok m k a H), created_app. Qed.

Lemma log_validate (K : Kernel) (input_ : value) (type_ : list pyclass)
    (required : bool) :
  log (_validate_type K input_ type_ required) = [].
Proof.
  unfold _validate_type.
  destruct (negb required && negb (truthy input_)); [reflexivity|].
  by destruct (negb (isinstance K input_ type_)).
Qed.

Lemma log_for_loop_silent {A S : Type} (l : list A) (body : A -> S -> M S) :
  (forall x s, log (body x s) = []) ->
  forall s, log (for_loop l s body) = [].
Proof.
  intros Hbody. induction l as [|x l IH]; intros s; [reflexivity|].
  cbn [for_loop]. specialize (Hbody x s). unfold bind, log in *.
  destruct (body x s) as [[s'|e] l1]; cbn in Hbody; subst l1; [|reflexivity].
  specialize (IH s'). destruct (for_loop l s' body) as [r l2].
  cbn in IH. by subst l2.
Qed.

(** As [run_monad], with the logs left as concatenations. *)
Ltac run_steps :=
  cbv beta iota zeta delta
    [bind ret raise emit call call_seq call_pair call_num new_part first
     result log raised fst snd];
  cbn [app].

Section Built.

Variable K : Kernel.

Lemma RibBetweenShapes_built (label : string)
    (shape1 shape2 wing basis_shape : value) (rib : Part) :
  result (RibBetweenShapes K label shape1 shape2 wing basis_shape) = Ok rib ->
  part_label rib = label /\
  created (log (RibBetweenShapes K label shape1 shape2 wing basis_shape))
  = [rib].
Proof.
  unfold RibBetweenShapes, RibByPoints, RibByParameters.
  crunch; intros [= <-]; split; reflexivity.
Qed.

Lemma FrameByPlane_built (label : string) (pln fuselage : value)
    (height : Q) (frame : Part) :
  result (FrameByPlane K label pln fuselage height) = Ok frame ->
  part_label frame = label /\
  created (log (FrameByPlane K label pln fuselage height)) = [frame].
Proof.
  unfold FrameByPlane. crunch; intros [= <-]; split; reflexivity.
Qed.

Lemma rib_body_builds (label delimiter : string)
    (shape1 shape2 wing : value) :
  builds_one label delimiter (rib_body K label delimiter shape1 shape2 wing).
Proof.
  intros pln acc idx acc' idx'. unfold rib_body. run_steps.
  pose proof (RibBetweenShapes_built (join delimiter [label; str idx]) shape1
                shape2 wing (kval K FaceBySurface_face [pln])) as Hbuilt.
  destruct (RibBetweenShapes K _ shape1 shape2 wing _)
    as [[rib|e] l] eqn:Hrib; run_steps; [|discriminate].
  intros [= <- <-]. destruct (Hbuilt rib eq_refl) as [Hlabel Hcreated].
  split; [reflexivity|]. exists rib. split; [reflexivity|].
  split; [exact Hlabel|].
  cbn [created]. change (snd (Ok rib, l)) with l in Hcreated.
  by rewrite app_nil_r.
Qed.

Lemma frame_body_builds (label delimiter : string) (fuselage : value)
    (height : Q) :
  builds_one label delimiter (frame_body K label delimiter fuselage height).
Proof.
  intros pln acc idx acc' idx'. unfold frame_body. run_steps.
  pose proof (FrameByPlane_built (join delimiter [label; str idx]) pln
                fuselage height) as Hbuilt.
  destruct (FrameByPlane K _ pln fuselage height)
    as [[frame|e] l] eqn:Hframe; run_steps; [|discriminate].
  intros [= <- <-]. destruct (Hbuilt frame eq_refl) as [Hlabel Hcreated].
  split; [reflexivity|]. exists frame. split; [reflexivity|].
  split; [exact Hlabel|].
  change (snd (Ok frame, l)) with l in Hcreated.
  by rewrite app_nil_r.
Qed.

Lemma for_loop_built (label delimiter : string)
    (body : value -> list Part * Z -> M (list Part * Z))
    (Hbody : builds_one label delimiter body) (plns : list value) :
  forall acc idx acc' idx',
    result (for_loop plns (acc, idx) body) = Ok (acc', idx') ->
    idx' = idx + Z.of_nat (length plns) /\
    exists new,
      acc' = acc ++ new /\ length new = length plns /\
      created (log (for_loop plns (acc, idx) body)) = new /\
      forall (k : nat) part,
        new !! k = Some part ->
        part_label part = label +:+ delimiter +:+ str (idx + Z.of_nat k).
Proof.
  induction plns as [|pln plns IH]; intros acc idx acc' idx'.
  - cbn. intros [= <- <-]. split; [lia|]. exists [].
    split; [by rewrite app_nil_r|]. split; [reflexivity|].
    split; [reflexivity|].
    intros k part Hk. by rewrite lookup_nil in Hk.
  - cbn [for_loop]. intros Hloop.
    destruct (result_bind_Ok _ _ _ Hloop) as ([acc1 idx1] & Hfirst & Hrest).
    destruct (Hbody pln acc idx acc1 idx1 Hfirst)
      as (-> & part & -> & Hlabel & Hcreated).
    destruct (IH (acc ++ [part]) (idx + 1) acc' idx' Hrest)
      as (-> & new & -> & Hlen & Hnew & Hlabels).
    split; [cbn [length]; lia|]. exists (part :: new).
    split; [by rewrite <- app_assoc|]. split; [cbn; lia|].
    split.
    { rewrite (created_bind _ _ _ Hfirst), Hcreated, Hnew. reflexivity. }
    intros [|k] p Hk; cbn in Hk.
    + injection Hk as <-. by rewrite Z.add_0_r.
    + rewrite (Hlabels k p Hk). do 3 f_equal. lia.
Qed.

End Built.

Lemma call_result (K : Kernel) (f : callable) (args : list value) (a : value) :
  result (call K f args) = Ok a -> a = kval K f args.
Proof. by intros [= <-]. Qed.

Lemma log_call (K : Kernel) (f : callable) (args : list value) :
  created (log (call K f args)) = [].
Proof. reflexivity. Qed.

Lemma log_call_num (K : Kernel) (f : callable) (args : list value) :
  created (log (call_num K f args)) = [].
Proof. reflexivity. Qed.

(** Follows a successful run through its binds, collecting the parts built
    on the way. *)
Ltac track H :=
  repeat (let a := fresh "a" in
          let Hs := fresh "Hstep" in
          apply result_bind_Ok in H as (a & Hs & H);
          rewrite (created_bind _ _ _ Hs);
          cbv beta in *;
          try (apply call_result in Hs; subst a);
          try (lazymatch type of Hs with
               | result (for_loop _ (_, _) _) = _ => fail
               | _ => clear Hs
               end)).

Lemma multi_built (K : Kernel) (c : multi_call) (built : Parts) :
  result (run_multi K c) = Ok built ->
  next_index built = first_index_of c + Z.of_nat (length (parts built)) /\
  length (parts built) = length (planes_of K c) /\
  created (log (run_multi K c)) = parts built /\
  forall (k : nat) part,
    parts built !! k = Some part ->
    part_label part
    = label_of c +:+ delimiter_of c +:+ str (first_index_of c + Z.of_nat k).
Proof.
  intros Hbuilt.
  destruct c;
    cbn [run_multi label_of first_index_of delimiter_of planes_of] in *.
  all: unfold RibsBetweenPlanesByNumber, RibsBetweenPlanesByDistance,
         RibsAlongCurveByNumber, RibsAlongCurveByDistance,
         FramesBetweenPlanesByNumber, FramesBetweenPlanesByDistance,
         FramesByPlanes in *.
  all: track Hbuilt.
  all: match goal with
       | Hloop : result (for_loop _ (_, _) _) = Ok ?looped |- _ =>
           destruct looped as [made idx]
       end.
  all: cbv beta iota in *; track Hbuilt.
  all: match goal with
       | Hloop : result (for_loop ?plns ([], ?i) ?body) = Ok (?made, ?idx)
         |- _ =>
           let Hb := fresh "Hb" in
           assert (Hb : builds_one _ _ body)
             by first [apply rib_body_builds | apply frame_body_builds];
           destruct (for_loop_built _ _ body Hb plns [] i made idx Hloop)
             as (-> & new & -> & Hlen & Hnew & Hlabels)
       end.
  all: rewrite ?log_validate, ?log_call, ?Hnew.
  all: rewrite ?(log_for_loop_silent _ _ (fun x s => log_validate K x [Plane] true)).
  all: cbn in Hbuilt; injection Hbuilt as <-; cbn [parts next_index app].
  all: split; [by rewrite Hlen|].
  all: split; [exact Hlen|].
  all: split; [|exact Hlabels].
  all: try (destruct plns as [|? [|? ?]]).
  all: cbn; by rewrite ?app_nil_r.
Qed.

(** X12.  When a multi-part builder returns, the parts it returns are the
    parts constructed during the run, in that order, one for each plane. *)
Theorem multi_parts_are_created (K : Kernel) (c : multi_call) (built : Parts)
    (Hbuilt : result (run_multi K c) = Ok built) :
  created (log (run_multi K c)) = parts built /\
  length (parts built) = length (planes_of K c).
Proof.
  destruct (multi_built K c built Hbuilt) as (_ & Hlen & Hcreated & _).
  by split.
Qed.

Lemma multi_parts_are_created_witness :
  exists built,
    result (run_multi demo_ok demo_frames) = Ok built /\
    created (log (run_multi demo_ok demo_frames)) = parts built.
Proof.
  eexists. split; [reflexivity|].
  apply (multi_parts_are_created demo_ok demo_frames). reflexivity.
Defined.

Lemma indexed_label_inj (label delimiter : string) (i j : Z) :
  label +:+ delimiter +:+ str i = label +:+ delimiter +:+ str j -> i = j.
Proof.
  intros H. apply (inj (String.app label)) in H.
  apply (inj (String.app delimiter)) in H.
  unfold str in H. by apply (inj pretty) in H.
Qed.

(** X13.  The parts a multi-part builder returns carry different labels at
    different positions. *)
Theorem multi_labels_distinct (K : Kernel) (c : multi_call) (built : Parts)
    (Hbuilt : result (run_multi K c) = Ok built) :
  forall (j k : nat) p q,
    parts built !! j = Some p -> parts built !! k = Some q ->
    j <> k -> part_label p <> part_label q.
Proof.
  destruct (multi_built K c built Hbuilt) as (_ & _ & _ & Hlabels).
  intros j k p q Hp Hq Hjk Heq.
  rewrite (Hlabels j p Hp), (Hlabels k q Hq) in Heq.
  apply indexed_label_inj in Heq. lia.
Qed.

Lemma multi_labels_distinct_witness :
  exists built,
    result (run_multi demo_ok demo_frames) = Ok built /\
    forall p q, parts built !! 0%nat = Some p -> parts built !! 1%nat = Some q ->
                part_label p <> part_label q.
Proof.
  eexists. split; [reflexivity|].
  intros p q Hp Hq.
  eapply (multi_labels_distinct demo_ok demo_frames _ eq_refl 0%nat 1%nat);
    [exact Hp | exact Hq | discriminate].
Defined.

(** X14.  When a second multi-part builder is given the label and delimiter
    of a first one and its [next_index] as first index, no part of the second
    carries the label of a part of the first. *)
Theorem chained_labels_distinct (K : Kernel) (c1 c2 : multi_call)
    (built1 built2 : Parts)
    (Hbuilt1 : result (run_multi K c1) = Ok built1)
    (Hbuilt2 : result (run_multi K c2) = Ok built2)
    (Hlabel : label_of c2 = label_of c1)
    (Hdelimiter : delimiter_of c2 = delimiter_of c1)
    (Hchain : first_index_of c2 = next_index built1) :
  forall p q, In p (parts built1) -> In q (parts built2) ->
              part_label p <> part_label q.
Proof.
  destruct (multi_built K c1 built1 Hbuilt1) as (Hnext & _ & _ & Hlabels1).
  destruct (multi_built K c2 built2 Hbuilt2) as (_ & _ & _ & Hlabels2).
  intros p q Hp Hq Heq.
  apply list_elem_of_In, list_elem_of_lookup in Hp as [j Hj].
  apply list_elem_of_In, list_elem_of_lookup in Hq as [k Hk].
  pose proof (lookup_lt_Some _ _ _ Hj) as Hlt.
  rewrite (Hlabels1 j p Hj), (Hlabels2 k q Hk), Hlabel, Hdelimiter in Heq.
  apply indexed_label_inj in Heq. lia.
Qed.

Lemma chained_labels_distinct_witness :
  exists built1 built2,
    result (run_multi demo_ok demo_frames) = Ok built1 /\
    result (run_multi demo_ok demo_more_frames) = Ok built2 /\
    Forall (fun p => Forall (fun q => part_label p <> part_label q)
                       (parts built2)) (parts built1).
Proof.
  do 2 eexists. split; [reflexivity|]. split; [reflexivity|].
  apply Forall_forall. intros p Hp. apply Forall_forall. intros q Hq.
  apply list_elem_of_In in Hp, Hq.
  exact (chained_labels_distinct demo_ok demo_frames demo_more_frames
           _ _ eq_refl eq_refl eq_refl eq_refl eq_refl p q Hp Hq).
Defined.

(** X15.  When [FramesByPlanes] returns, [nframes] is the number of frames
    built and the spacing is the distance between the origins of the first
    two planes, [None] with fewer than two planes.  Without planes it
    returns no frame, [next_index] is the first index, and the kernel is not
    called. *)
Theorem frames_by_planes_attributes (K : Kernel) (label : string)
    (plns : list value) (fuselage : value) (height : Q) (first_index : Z)
    (delimiter : string) (built : Parts)
    (Hbuilt : result (FramesByPlanes K label plns fuselage height first_index
                        delimiter) = Ok built) :
  nparts built = PInt (Z.of_nat (length (parts built))) /\
  ds built
  = match plns with
    | pln0 :: pln1 :: _ =>
        PNum (knum K distance [kval K eval [pln0; PNum 0; PNum 0];
                               kval K eval [pln1; PNum 0; PNum 0]])
    | _ => PNone
    end /\
  (plns = [] ->
   FramesByPlanes K label plns fuselage height first_index delimiter
   = (Ok (mkParts [] (PInt 0) PNone first_index), [])).
Proof.
  destruct (multi_built K (call_FramesByPlanes label plns fuselage height
                             first_index delimiter) built Hbuilt)
    as (_ & Hlen & _ & _).
  cbn [planes_of] in Hlen.
  split; [|split].
  - unfold FramesByPlanes in Hbuilt. peel Hbuilt.
    match goal with
    | Hloop : result (for_loop _ (_, _) _) = Ok ?looped |- _ =>
        destruct looped as [made idx]
    end.
    cbv beta iota in Hbuilt. peel Hbuilt. cbn in Hbuilt.
    injection Hbuilt as <-. cbn [nparts parts] in *. by rewrite Hlen.
  - unfold FramesByPlanes in Hbuilt. peel Hbuilt.
    match goal with
    | Hloop : result (for_loop _ (_, _) _) = Ok ?looped |- _ =>
        destruct looped as [made idx]
    end.
    cbv beta iota in Hbuilt.
    destruct plns as [|pln0 [|pln1 rest]]; cbn in Hbuilt;
      injection Hbuilt as <-; reflexivity.
  - intros ->. revert Hbuilt. unfold FramesByPlanes. cbn [for_loop length].
    crunch; first [discriminate | reflexivity].
Qed.

Lemma frames_by_planes_attributes_witness :
  exists built,
    result (run_multi demo_ok demo_frames) = Ok built /\
    nparts built = PInt 2 /\ ds built = PNum 2.
Proof.
  eexists. split; [reflexivity|].
  destruct (frames_by_planes_attributes demo_ok "frame"
              [a_plane 1; a_plane 2] a_fuselage (3 # 2) 5 "-" _ eq_refl)
    as (Hn & Hds & _).
  split; [exact Hn | exact Hds].
Defined.

Lemma log_bind_silent {A B : Type} (a : A) (k : A -> M B) :
  log (bind (Ok a, []) k) = log (k a).
Proof. unfold bind, log. by destruct (k a). Qed.

Lemma created_bind_incl {A B : Type} (m : M A) (k : A -> M B) (p : Part) :
  In p (created (log m)) -> In p (created (log (bind m k))).
Proof.
  unfold bind, log. destruct m as [[a|e] l1]; cbn [snd]; [|done].
  destruct (k a) as [r l2]. cbn [snd]. rewrite created_app.
  intros H. apply in_or_app. by left.
Qed.

(** X16.  [FramesByPlanes] is not all-or-nothing: once the planes and the
    fuselage are accepted and the frame of the first plane is built, that
    frame has been constructed whatever happens at the later planes. *)
Theorem first_frame_built_even_on_failure (K : Kernel) (label : string)
    (pln : value) (rest : list value) (fuselage : value) (height : Q)
    (first_index : Z) (delimiter : string) (frame : Part)
    (Hplanes : forall p, In p (pln :: rest) -> isinstance K p [Plane] = true)
    (Hfuselage : isinstance K fuselage [Fuselage] = true)
    (Hframe : result (FrameByPlane K (label +:+ delimiter +:+ str first_index)
                        pln fuselage height) = Ok frame) :
  In frame
    (created (log (FramesByPlanes K label (pln :: rest) fuselage height
                     first_index delimiter))).
Proof.
  assert (Hvalid : forall l,
             (forall p, In p l -> isinstance K p [Plane] = true) ->
             for_loop l tt (fun p _ => _validate_type K p [Plane] true)
             = (Ok tt, [])).
  { induction l as [|p l IH]; intros Hl; [reflexivity|].
    cbn [for_loop]. unfold _validate_type at 1.
    rewrite (Hl p (or_introl eq_refl)). cbn [negb andb].
    unfold bind, ret. rewrite IH; [reflexivity|].
    intros q Hq. apply Hl. by right. }
  unfold FramesByPlanes. rewrite (Hvalid _ Hplanes).
  unfold _validate_type. rewrite Hfuselage. cbn [negb andb].
  rewrite (log_bind_silent tt). rewrite (log_bind_silent tt).
  cbn [for_loop]. unfold frame_body at 1.
  change (join delimiter [label; str first_index])
    with (label +:+ delimiter +:+ str first_index).
  do 3 apply created_bind_incl.
  destruct (FrameByPlane_built K _ pln fuselage height frame Hframe)
    as [_ ->].
  by left.
Qed.

Lemma first_frame_built_even_on_failure_witness :
  let run := FramesByPlanes demo_second_fails "frame"
               [a_plane 1; a_plane 2; a_plane 3] a_fuselage (3 # 2) 5 "-" in
  raised run = Some boolean_error /\
  In (mkPart Frame "frame-5" (PObj TopoDS_Shape 1) PNone (a_plane 1))
     (created (log run)).
Proof.
  split; [reflexivity|].
  apply (first_frame_built_even_on_failure demo_second_fails "frame"
           (a_plane 1) [a_plane 2; a_plane 3] a_fuselage (3 # 2) 5 "-").
  - intros p [<- | [<- | [<- | []]]]; reflexivity.
  - reflexivity.
  - reflexivity.
Defined.

(** X17.  A spar or rib built by [SparBySurface] or [RibBySurface] has the
    surface given as reference surface, and as reference curve the curve of
    the longest wire of the section of its face with the wing's reference
    shape, reversed exactly when its end is strictly nearer than its start
    to the wing's corner of least parameters; its shape is made of the faces
    of the common of the face with the wing. *)
Theorem by_surface_references (K : Kernel) (label : string)
    (srf wing : value) (part : Part) :
  let face := kval K FaceBySurface_face [srf] in
  let section :=
    aval K (kval K IntersectShapes [face; aval K wing sref_shape]) shape_ in
  let wires :=
    kseq K WiresByConnectedEdges_wires
      [PList (kseq K ExploreShape_get_edges [section])] in
  let curve :=
    kval K ExploreShape_curve_of_shape
      [kval K CheckShape_to_wire
         [kval K LengthOfShapes_longest_shape [PList wires]]] in
  let corner :=
    kval K eval [wing; aval K (aval K wing sref_) u1_;
                 aval K (aval K wing sref_) v1_] in
  let d1 := knum K distance [corner; kval K eval [curve; aval K curve u1_]] in
  let d2 := knum K distance [corner; kval K eval [curve; aval K curve u2_]] in
  result (SparBySurface K label srf wing) = Ok part \/
  result (RibBySurface K label srf wing) = Ok part ->
  part_sref part = srf /\
  ((d2 < d1)%Q -> part_cref part = kval K reverse [curve]) /\
  ((d1 <= d2)%Q -> part_cref part = curve) /\
  part_shape part
  = faces_shape K (aval K (kval K CommonShapes [face; wing]) shape_).
Proof.
  cbv zeta. unfold SparBySurface, RibBySurface, faces_shape.
  intros [H | H]; revert H; crunch; intros [= <-]; cbn [part_sref part_cref part_shape];
    repeat split; try reflexivity; intros Hd; exfalso;
    first [ eapply Qlt_irrefl, Qlt_le_trans; eassumption
          | eapply Qlt_irrefl, Qle_lt_trans; eassumption ].
Qed.

Lemma by_surface_references_witness :
  part_sref (mkPart Spar "spar" (PObj TopoDS_Shape 1) (PObj Curve 1)
               (PObj Surface 1)) = PObj Surface 1.
Proof.
  apply (by_surface_references demo_ok "spar" (PObj Surface 1) a_wing).
  left. reflexivity.
Defined.




